(** * Working with Chemical Data: the RDKit introduction notebook

    A shallow embedding of
    [molecular-property-prediction/chemoinformatics/0_introduction-to-rdkit.ipynb].

    The notebook is a straight-line sequence of cells; every cell is a short
    call sequence into pandas, gzip, json, numpy and RDKit.  The embedding
    keeps that shape:

    - the external world (the file on disk as [gzip.open] and as [read_json]
      see it, JSON decoding, the column conversion of [read_json], the RDKit
      entry points) is a record [Env] of functions, every one of which may
      raise;
    - the part of pandas the notebook relies on ([read_json] with
      [lines=True], [head], [df[[...]]], [df[c] = ...], [Series.map]) is
      written out on a concrete column-major table;
    - a cell is a computation in a state-and-exception monad over the kernel's
      variables, and the notebook is the list of its code cells, run top to
      bottom and stopped by the first cell that raises. *)

From Stdlib Require Import String Ascii ZArith Lia Bool Arith List.
From Stdlib Require Import DecimalString.
Import ListNotations.
Local Open Scope string_scope.

Set Implicit Arguments.

(** ** Python strings

    A Python [str] is kept as the sequence of its code points, all of them
    below 256. *)

Module PyStr.

Definition nl : ascii := "010"%char.

Definition cr : ascii := "013"%char.

Definition is_nl (c : ascii) : bool := Ascii.eqb c nl.

Definition is_cr (c : ascii) : bool := Ascii.eqb c cr.

(** The characters [str.strip()] removes, among the code points below 256:
    tab, line feed, vertical tab, form feed, carriage return, the four
    separators 28..31, the space, the next-line character 133 and the
    no-break space 160. *)
Definition is_space (c : ascii) : bool :=
  let n := nat_of_ascii c in
  ((9 <=? n)%nat && (n <=? 13)%nat) || ((28 <=? n)%nat && (n <=? 32)%nat)
  || (n =? 133)%nat || (n =? 160)%nat.

Fixpoint all_space (s : string) : bool :=
  match s with
  | EmptyString => true
  | String c s' => is_space c && all_space s'
  end.

Fixpoint no_nl (s : string) : bool :=
  match s with
  | EmptyString => true
  | String c s' => negb (is_nl c) && no_nl s'
  end.

Fixpoint no_cr (s : string) : bool :=
  match s with
  | EmptyString => true
  | String c s' => negb (is_cr c) && no_cr s'
  end.

Fixpoint lstrip (s : string) : string :=
  match s with
  | EmptyString => EmptyString
  | String c s' => if is_space c then lstrip s' else s
  end.

Fixpoint rstrip (s : string) : string :=
  match s with
  | EmptyString => EmptyString
  | String c s' =>
      match rstrip s' with
      | EmptyString => if is_space c then EmptyString else String c EmptyString
      | t => String c t
      end
  end.

(** [s.strip()] *)
Definition strip (s : string) : string := rstrip (lstrip s).

(** [fp.readline()] on a file opened in text mode with the default
    [newline=None], positioned at the start of the characters [s] of the
    file: a line ends at a line feed, at a carriage return, or at a carriage
    return followed by a line feed, and each of these endings is handed over
    as one line feed.  Without any line ending all of [s] is the line. *)
Fixpoint readline (s : string) : string :=
  match s with
  | EmptyString => EmptyString
  | String c s' =>
      if is_nl c || is_cr c then String nl EmptyString
      else String c (readline s')
  end.

(** [s.split("\n")] *)
Fixpoint split_nl (s : string) : list string :=
  match s with
  | EmptyString => [EmptyString]
  | String c s' =>
      if is_nl c then EmptyString :: split_nl s'
      else match split_nl s' with
           | l :: ls => String c l :: ls
           | [] => [String c EmptyString]
           end
  end.

Definition is_empty (s : string) : bool :=
  match s with EmptyString => true | _ => false end.

(** A text file whose lines are [ls], each one terminated by a line feed. *)
Definition unlines (ls : list string) : string :=
  fold_right (fun l acc => l ++ String nl acc) EmptyString ls.

(** ["\n".join(ls)]: the same lines with the last one left unterminated. *)
Fixpoint join_lines (ls : list string) : string :=
  match ls with
  | [] => EmptyString
  | [l] => l
  | l :: ls' => l ++ String nl (join_lines ls')
  end.

Definition show_nat (n : nat) : string :=
  NilEmpty.string_of_uint (Nat.to_uint n).

Definition show_Z (z : Z) : string :=
  NilEmpty.string_of_int (Z.to_int z).

End PyStr.

(** ** Exceptions and results *)

Inductive exn : Type :=
| NameError (name : string)          (* a variable read before any cell bound it *)
| KeyError (key : string)            (* [df[c]] for a label that is no column *)
| KeyErrorLabels (none_found : bool) (labels : list string)
                                     (* [df[[...]]] with such labels *)
| AttributeError (attr : string)     (* a method looked up on [None] *)
| ArgumentError (fn : string)        (* a value of the wrong type at the C++ boundary *)
| ExternalError (fn : string) (code : Z). (* raised inside an external library *)

Inductive result (A : Type) : Type :=
| Ok (a : A)
| Raise (e : exn).
Arguments Ok {A} a.
Arguments Raise {A} e.

(** ** Values *)

Section Values.

Variable M : Type.   (* the library's molecule objects *)

(** The Python values that occur as decoded JSON, as table cells and as
    record fields.  A float is kept as the decimal literal [m * 10^e] it was
    read from; no cell of the notebook computes with one.  A [dict] keeps its
    insertion order. *)
#[warnings="-register-all"]
Inductive value : Type :=
| VNone
| VNaN
| VBool (b : bool)
| VInt (z : Z)
| VFloat (m e : Z)
| VStr (s : string)
| VList (l : list value)
| VDict (d : list (string * value))
| VMol (m : M).

(** A record is the [dict] decoded from one line. *)
Definition pyrecord : Type := list (string * value).

Fixpoint lookup (k : string) (r : pyrecord) : option value :=
  match r with
  | [] => None
  | (k', v) :: r' => if String.eqb k k' then Some v else lookup k r'
  end.

Definition keys (r : pyrecord) : list string := map fst r.

(** The elements of a decoded JSON array, if every one of them is an
    object. *)
Fixpoint records_of (vs : list value) : option (list pyrecord) :=
  match vs with
  | [] => Some []
  | VDict r :: vs' =>
      match records_of vs' with
      | Some rs => Some (r :: rs)
      | None => None
      end
  | _ :: _ => None
  end.

(** ** Tables

    A [DataFrame] with the default [RangeIndex]: a row count and the columns
    in order, each a label and its cells. *)
Record Table : Type := mkTable {
  nrows : nat;
  cols : list (string * list value)
}.

Definition columns (t : Table) : list string := map fst (cols t).

Fixpoint get_col (c : string) (cs : list (string * list value))
  : option (list value) :=
  match cs with
  | [] => None
  | (c', vs) :: cs' => if String.eqb c c' then Some vs else get_col c cs'
  end.

(** [df[c]] *)
Definition getitem (t : Table) (c : string) : result (list value) :=
  match get_col c (cols t) with
  | Some vs => Ok vs
  | None => Raise (KeyError c)
  end.

(** The labels of [ks] in order of first appearance, after those of
    [seen]. *)
Fixpoint add_keys (seen ks : list string) : list string :=
  match ks with
  | [] => seen
  | k :: ks' =>
      if existsb (String.eqb k) seen then add_keys seen ks'
      else add_keys (seen ++ [k])%list ks'
  end.

(** [df[[c1, ..., ck]]]: the listed columns, in the order listed.  When some
    listed label is not a column, one [KeyError] is raised for the whole
    list: it names all the listed labels when none of them is a column, and
    otherwise the labels that are not columns, each once, in the order
    listed. *)
Definition absent (cs : list (string * list value)) (c : string) : bool :=
  match get_col c cs with
  | Some _ => false
  | None => true
  end.

Fixpoint pick (cs : list (string * list value)) (names : list string)
  : list (string * list value) :=
  match names with
  | [] => []
  | c :: names' =>
      match get_col c cs with
      | Some vs => (c, vs) :: pick cs names'
      | None => pick cs names'
      end
  end.

Definition select (cs : list (string * list value)) (names : list string)
  : result (list (string * list value)) :=
  match filter (absent cs) names with
  | [] => Ok (pick cs names)
  | c :: more =>
      if forallb (absent cs) names then Raise (KeyErrorLabels true names)
      else Raise (KeyErrorLabels false (add_keys [] (c :: more)))
  end.

Definition getitem_list (t : Table) (names : list string) : result Table :=
  match select (cols t) names with
  | Ok sel => Ok (mkTable (nrows t) sel)
  | Raise e => Raise e
  end.

(** [df.head(n)]: the first [n] rows; for a negative [n], all rows but the
    last [-n]. *)
Definition head_count (n : Z) (rows : nat) : nat :=
  if (n <? 0)%Z then rows - Z.to_nat (- n) else Nat.min (Z.to_nat n) rows.

Definition head (n : Z) (t : Table) : Table :=
  let k := head_count n (nrows t) in
  mkTable k (map (fun c => (fst c, firstn k (snd c))) (cols t)).

(** [df[c] = vs] for a column [vs] carrying the table's own index: an
    existing column keeps its place and gets the new cells, a new label is
    appended as the last column. *)
Fixpoint set_col (c : string) (vs : list value)
         (cs : list (string * list value)) : list (string * list value) :=
  match cs with
  | [] => [(c, vs)]
  | (c', ws) :: cs' =>
      if String.eqb c c' then (c', vs) :: cs' else (c', ws) :: set_col c vs cs'
  end.

Definition setitem (t : Table) (c : string) (vs : list value) : Table :=
  mkTable (nrows t) (set_col c vs (cols t)).

(** Row [i] of a table, read across the columns ([df.iloc[i].to_dict()]). *)
Definition row (t : Table) (i : nat) : pyrecord :=
  map (fun c => (fst c, nth i (snd c) VNaN)) (cols t).

(** All rows, top to bottom ([df.to_dict('records')]). *)
Definition rows (t : Table) : list pyrecord :=
  map (row t) (seq 0 (nrows t)).


(** *** Building a table from records

    [DataFrame(list_of_dicts)]: the columns are the keys in order of first
    appearance over all records; a record without a key gets [NaN] there.
    The cells are the decoded values as they stand; what pandas makes of
    them once it has settled on the type of each column is [convert],
    below. *)
Definition union_keys (rs : list pyrecord) : list string :=
  fold_left (fun seen r => add_keys seen (keys r)) rs [].

Definition cell (k : string) (r : pyrecord) : value :=
  match lookup k r with Some v => v | None => VNaN end.

Definition from_records (rs : list pyrecord) : Table :=
  mkTable (length rs)
          (map (fun k => (k, map (cell k) rs)) (union_keys rs)).

(** *** Converting the columns

    After the table is built, [read_json] converts it column by column: it
    looks at a whole column, settles on what the column is to hold, and
    replaces every cell accordingly.  [infer c col v] is the cell that
    replaces [v] in the column labelled [c] whose cells are [col]. *)
Definition convert (infer : string -> list value -> value -> value)
           (t : Table) : Table :=
  mkTable (nrows t)
          (map (fun c => (fst c, map (infer (fst c) (snd c)) (snd c)))
               (cols t)).

End Values.

Arguments VNone {M}.
Arguments VNaN {M}.
Arguments VBool {M} b.
Arguments VInt {M} z.
Arguments VFloat {M} m e.
Arguments VStr {M} s.

(** ** The external world

    What the notebook calls and does not define.  Every entry point may raise
    (a missing or corrupt file, a text that is not JSON, an RDKit error), and
    [MolFromSmiles] may moreover answer [None]: Python gives a caller both
    ways of being told that a string was not understood.

    The file is reached in two ways, and the record keeps them apart:
    [gzip_open] and [fp_readline] are cell 4 opening the file in text mode
    and reading its first line, [pd_read] is the whole text [read_json] gets
    from the path.  [json_loads] is JSON decoding, as [json.loads] does it in
    cell 6 and as the decoder inside [read_json] does it in cell 8; what
    [read_json] then makes of the decoded values, column by column (its
    reading of numbers and its dtype inference), is [pd_infer]. *)

Record Env : Type := mkEnv {
  Mol : Type;          (* rdkit.Chem.rdchem.Mol *)
  RingInfo : Type;     (* rdkit.Chem.rdchem.RingInfo *)
  Vectd : Type;        (* rdkit.rdBase._vectd *)
  BitVect : Type;      (* rdkit.DataStructs.cDataStructs.ExplicitBitVect *)
  TextFile : Type;     (* the file object of gzip.open(..., 'rt') *)
  (** [gzip.open(path, 'rt')] *)
  gzip_open : string -> result TextFile;
  (** [fp.readline()] on the file just opened *)
  fp_readline : TextFile -> result string;
  (** the decoded value of a JSON text *)
  json_loads : string -> result (value Mol);
  (** the text [pd.read_json] reads from a path *)
  pd_read : string -> result string;
  (** the column conversion of [pd.read_json]: label, cells of the column,
      cell to convert *)
  pd_infer : string -> list (value Mol) -> value Mol -> value Mol;
  MolFromSmiles : string -> result (option Mol);
  AddHs : Mol -> result Mol;
  (** [a.GetSymbol()] over [mol.GetAtoms()] *)
  GetAtomSymbols : Mol -> result (list string);
  GetRingInfo : Mol -> result RingInfo;
  NumRings : RingInfo -> result Z;
  CalcNumRotatableBonds : Mol -> result Z;
  BCUT2D : Mol -> result Vectd;
  GetMorganFingerprintAsBitVect : Mol -> Z -> Z -> result BitVect;
  (** [np.asarray] on a bit vector *)
  asarray : BitVect -> result (list Z)
}.

(** ** The kernel *)

Section Notebook.

Variable E : Env.

Local Abbreviation val := (value (Mol E)).
Local Abbreviation table := (Table (Mol E)).

(** The calls that cross into RDKit, with the Python value each one was
    handed. *)
Inductive event : Type :=
| CallMolFromSmiles (arg : val)
| CallAddHs (arg : val)
| CallGetAtoms (arg : val)
| CallGetRingInfo (arg : val)
| CallNumRings
| CallCalcNumRotatableBonds (arg : val)
| CallBCUT2D (arg : val)
| CallMorgan (arg : val) (radius nbits : Z)
| CallAsarray.

(** What a cell leaves in its output area. *)
Inductive shown : Type :=
| Printed (line : string)
| ShownValue (v : val)
| ShownTable (t : table)
| ShownMol (m : Mol E)
| ShownVectd (x : Vectd E)
| ShownBitVect (b : BitVect E)
| ShownArray (a : list Z).

(** The two kinds of object the notebook binds to [r], one after the
    other. *)
Inductive r_object : Type :=
| RRing (x : RingInfo E)
| RVect (x : Vectd E).

(** The variables of the notebook, unbound until a cell assigns them, the
    output produced so far and the library calls made so far. *)
Record Kernel : Type := mkKernel {
  v_data_path : option string;
  v_fp : option (TextFile E);
  v_record : option string;
  v_data : option table;
  v_mol : option val;
  v_toluene : option val;
  v_r : option r_object;
  v_bv : option (BitVect E);
  output : list shown;
  trace : list event
}.

Definition fresh : Kernel :=
  mkKernel None None None None None None None None [] [].

(** *** State and exceptions *)

Definition M (A : Type) : Type := Kernel -> Kernel * result A.

Definition ret {A} (a : A) : M A := fun k => (k, Ok a).

Definition raise {A} (e : exn) : M A := fun k => (k, Raise e).

Definition bind {A B} (m : M A) (f : A -> M B) : M B :=
  fun k =>
    match m k with
    | (k', Ok a) => f a k'
    | (k', Raise e) => (k', Raise e)
    end.

Definition lift {A} (r : result A) : M A := fun k => (k, r).

Definition log (ev : event) : M unit :=
  fun k => (mkKernel (v_data_path k) (v_fp k) (v_record k) (v_data k)
                     (v_mol k) (v_toluene k) (v_r k) (v_bv k) (output k)
                     (trace k ++ [ev])%list,
            Ok tt).

Definition show (s : shown) : M unit :=
  fun k => (mkKernel (v_data_path k) (v_fp k) (v_record k) (v_data k)
                     (v_mol k) (v_toluene k) (v_r k) (v_bv k)
                     (output k ++ [s])%list (trace k),
            Ok tt).

Definition print (line : string) : M unit := show (Printed line).

(** Reading a variable that no cell has bound raises [NameError]. *)
Definition read {A} (name : string) (get : Kernel -> option A) : M A :=
  fun k => match get k with
           | Some a => (k, Ok a)
           | None => (k, Raise (NameError name))
           end.

Definition set_data_path (s : string) : M unit :=
  fun k => (mkKernel (Some s) (v_fp k) (v_record k) (v_data k) (v_mol k)
                     (v_toluene k) (v_r k) (v_bv k) (output k) (trace k),
            Ok tt).
Definition set_fp (f : TextFile E) : M unit :=
  fun k => (mkKernel (v_data_path k) (Some f) (v_record k) (v_data k)
                     (v_mol k) (v_toluene k) (v_r k) (v_bv k) (output k)
                     (trace k), Ok tt).
Definition set_record (s : string) : M unit :=
  fun k => (mkKernel (v_data_path k) (v_fp k) (Some s) (v_data k) (v_mol k)
                     (v_toluene k) (v_r k) (v_bv k) (output k) (trace k),
            Ok tt).
Definition set_data (t : table) : M unit :=
  fun k => (mkKernel (v_data_path k) (v_fp k) (v_record k) (Some t) (v_mol k)
                     (v_toluene k) (v_r k) (v_bv k) (output k) (trace k),
            Ok tt).
Definition set_mol (v : val) : M unit :=
  fun k => (mkKernel (v_data_path k) (v_fp k) (v_record k) (v_data k)
                     (Some v) (v_toluene k) (v_r k) (v_bv k) (output k)
                     (trace k), Ok tt).
Definition set_toluene (v : val) : M unit :=
  fun k => (mkKernel (v_data_path k) (v_fp k) (v_record k) (v_data k)
                     (v_mol k) (Some v) (v_r k) (v_bv k) (output k)
                     (trace k), Ok tt).
Definition set_r (x : r_object) : M unit :=
  fun k => (mkKernel (v_data_path k) (v_fp k) (v_record k) (v_data k)
                     (v_mol k) (v_toluene k) (Some x) (v_bv k) (output k)
                     (trace k), Ok tt).
Definition set_bv (b : BitVect E) : M unit :=
  fun k => (mkKernel (v_data_path k) (v_fp k) (v_record k) (v_data k)
                     (v_mol k) (v_toluene k) (v_r k) (Some b) (output k)
                     (trace k), Ok tt).

Notation "x <- m ;; f" := (bind m (fun x => f))
  (at level 61, m at next level, right associativity).
Notation "m ;;; f" := (bind m (fun _ => f))
  (at level 61, right associativity).

(** A loop over a list that calls [f] on each element in turn and stops at
    the first call that raises. *)
Fixpoint for_each {A B} (f : A -> M B) (xs : list A) : M (list B) :=
  match xs with
  | [] => ret []
  | x :: xs' => y <- f x ;; ys <- for_each f xs' ;; ret (y :: ys)
  end.

(** *** Calls into RDKit, as Python makes them

    A function of the [Chem]/[AllChem] modules is handed whatever value the
    variable holds; the C++ boundary rejects a value of the wrong type with
    an [ArgumentError].  A method is looked up on the value first, and on
    [None] this lookup already fails with an [AttributeError]. *)

Definition of_parse (r : option (Mol E)) : val :=
  match r with Some m => VMol m | None => VNone end.

Definition Chem_MolFromSmiles (v : val) : M val :=
  log (CallMolFromSmiles v) ;;;
  match v with
  | VStr s => r <- lift (MolFromSmiles E s) ;; ret (of_parse r)
  | _ => raise (ArgumentError "MolFromSmiles")
  end.

Definition Chem_AddHs (v : val) : M val :=
  log (CallAddHs v) ;;;
  match v with
  | VMol m => m' <- lift (AddHs E m) ;; ret (VMol m')
  | _ => raise (ArgumentError "AddHs")
  end.

Definition AllChem_CalcNumRotatableBonds (v : val) : M Z :=
  log (CallCalcNumRotatableBonds v) ;;;
  match v with
  | VMol m => lift (CalcNumRotatableBonds E m)
  | _ => raise (ArgumentError "CalcNumRotatableBonds")
  end.

Definition AllChem_BCUT2D (v : val) : M (Vectd E) :=
  log (CallBCUT2D v) ;;;
  match v with
  | VMol m => lift (BCUT2D E m)
  | _ => raise (ArgumentError "BCUT2D")
  end.

Definition AllChem_GetMorganFingerprintAsBitVect (v : val) (radius nbits : Z)
  : M (BitVect E) :=
  log (CallMorgan v radius nbits) ;;;
  match v with
  | VMol m => lift (GetMorganFingerprintAsBitVect E m radius nbits)
  | _ => raise (ArgumentError "GetMorganFingerprintAsBitVect")
  end.

Definition method_GetAtoms (v : val) : M (list string) :=
  match v with
  | VMol m => log (CallGetAtoms v) ;;; lift (GetAtomSymbols E m)
  | _ => raise (AttributeError "GetAtoms")
  end.

Definition method_GetRingInfo (v : val) : M (RingInfo E) :=
  match v with
  | VMol m => log (CallGetRingInfo v) ;;; lift (GetRingInfo E m)
  | _ => raise (AttributeError "GetRingInfo")
  end.

Definition method_NumRings (x : r_object) : M Z :=
  match x with
  | RRing ri => log CallNumRings ;;; lift (NumRings E ri)
  | RVect _ => raise (AttributeError "NumRings")
  end.

Definition np_asarray (b : BitVect E) : M (list Z) :=
  log CallAsarray ;;; lift (asarray E b).

(** A cell whose last line is an expression shows its value, unless the
    value is [None]. *)
Definition show_val (v : val) : M unit :=
  match v with
  | VMol m => show (ShownMol m)
  | _ => ret tt
  end.

Definition show_decoded (v : val) : M unit :=
  match v with
  | VNone => ret tt
  | _ => show (ShownValue v)
  end.

(** *** pandas entry points that touch the world *)

(** [pd.read_json(path, lines=True)]: the text is split at line feeds, each
    piece is stripped, empty pieces are dropped, the remaining pieces are
    joined with commas inside brackets, and that one text is decoded as a
    JSON array.  The table is built from the objects of the array and then
    converted column by column.  A file whose lines are not all JSON objects
    is outside what the notebook reads (pandas builds a table of another
    shape from it, or raises); here the function raises.  The labels of the
    table are the keys as they are written: the conversion [read_json]
    applies to the labels themselves, when every key of the file reads as a
    number or as a date, is not part of the model. *)
Definition json_lines (text : string) : list string :=
  filter (fun l => negb (PyStr.is_empty l))
         (map PyStr.strip (PyStr.split_nl text)).

Definition combine_lines (ls : list string) : string :=
  "[" ++ String.concat "," ls ++ "]".

Definition read_json_lines (path : string) : result table :=
  match pd_read E path with
  | Raise e => Raise e
  | Ok text =>
      match json_loads E (combine_lines (json_lines text)) with
      | Raise e => Raise e
      | Ok (VList vs) =>
          match records_of vs with
          | Some rs => Ok (convert (pd_infer E) (from_records rs))
          | None => Raise (ExternalError "read_json" 1)
          end
      | Ok _ => Raise (ExternalError "read_json" 2)
      end
  end.

(** [series.map(f)]: [f] is called on each cell from the top down; the
    result keeps the index of the series. *)
Definition Series_map (f : val -> M val) (vs : list val) : M (list val) :=
  for_each f vs.

(** ** The cells, in notebook order *)

(** The literal that cell 4 assigns to [data_path]. *)
Definition qm9_json_gz : string := "../datasets/qm9.json.gz".

(** <<
    data_path = '../datasets/qm9.json.gz'
    with gzip.open(data_path, 'rt') as fp:
        record = fp.readline().strip()
    print(record)
    >>
    The [with] statement binds [fp] once the file is open and closes the file
    when the block is left, also when [readline] raises; the variable stays
    bound to the closed file. *)
Definition cell4 : M unit :=
  set_data_path qm9_json_gz ;;;
  data_path <- read "data_path" v_data_path ;;
  f <- lift (gzip_open E data_path) ;;
  set_fp f ;;;
  fp <- read "fp" v_fp ;;
  line <- lift (fp_readline E fp) ;;
  set_record (PyStr.strip line) ;;;
  record <- read "record" v_record ;;
  print record.

(** [json.loads(record)] *)
Definition cell6 : M unit :=
  record <- read "record" v_record ;;
  v <- lift (json_loads E record) ;;
  show_decoded v.

(** [data = pd.read_json(data_path, lines=True).head(1000)] *)
Definition cell8 : M unit :=
  data_path <- read "data_path" v_data_path ;;
  t <- lift (read_json_lines data_path) ;;
  set_data (head 1000 t).

(** [data[['smiles_0', 'inchi_0', 'u']].head(5)] *)
Definition cell9 : M unit :=
  data <- read "data" v_data ;;
  t <- lift (getitem_list data ["smiles_0"; "inchi_0"; "u"]) ;;
  show (ShownTable (head 5 t)).

(** <<
    mol = Chem.MolFromSmiles('CCCO')
    mol
    >> *)
Definition cell13 : M unit :=
  m <- Chem_MolFromSmiles (VStr "CCCO") ;;
  set_mol m ;;;
  mol <- read "mol" v_mol ;;
  show_val mol.

(** [data['mol'] = data['smiles_0'].map(Chem.MolFromSmiles)] *)
Definition cell15 : M unit :=
  data <- read "data" v_data ;;
  smiles <- lift (getitem data "smiles_0") ;;
  mols <- Series_map Chem_MolFromSmiles smiles ;;
  data <- read "data" v_data ;;
  set_data (setitem data "mol" mols).

(** <<
    for i, a in enumerate(mol.GetAtoms()):
        print(f'Atom {i} is an {a.GetSymbol()}')
    >> *)
Definition atom_line (i : nat) (sym : string) : string :=
  "Atom " ++ PyStr.show_nat i ++ " is an " ++ sym.

Definition print_atoms : M unit :=
  mol <- read "mol" v_mol ;;
  syms <- method_GetAtoms mol ;;
  for_each (fun p => print (atom_line (fst p) (snd p)))
           (combine (seq 0 (length syms)) syms) ;;;
  ret tt.

Definition cell18 : M unit := print_atoms.

(** <<
    mol = Chem.AddHs(mol)
    mol
    >> *)
Definition cell20 : M unit :=
  mol <- read "mol" v_mol ;;
  m <- Chem_AddHs mol ;;
  set_mol m ;;;
  mol <- read "mol" v_mol ;;
  show_val mol.

Definition cell21 : M unit := print_atoms.

(** <<
    toluene = Chem.MolFromSmiles('Cc1ccccc1')
    toluene
    >> *)
Definition cell23 : M unit :=
  m <- Chem_MolFromSmiles (VStr "Cc1ccccc1") ;;
  set_toluene m ;;;
  toluene <- read "toluene" v_toluene ;;
  show_val toluene.

(** <<
    r = toluene.GetRingInfo()
    print(f'Toluene has {r.NumRings()} ring')
    >> *)
Definition cell24 : M unit :=
  toluene <- read "toluene" v_toluene ;;
  ri <- method_GetRingInfo toluene ;;
  set_r (RRing ri) ;;;
  r <- read "r" v_r ;;
  n <- method_NumRings r ;;
  print ("Toluene has " ++ PyStr.show_Z n ++ " ring").

(** [print(f'Toluene has {AllChem.CalcNumRotatableBonds(toluene)} rotatable bonds')] *)
Definition cell28 : M unit :=
  toluene <- read "toluene" v_toluene ;;
  n <- AllChem_CalcNumRotatableBonds toluene ;;
  print ("Toluene has " ++ PyStr.show_Z n ++ " rotatable bonds").

(** <<
    r = AllChem.BCUT2D(mol)
    r
    >> *)
Definition cell30 : M unit :=
  mol <- read "mol" v_mol ;;
  x <- AllChem_BCUT2D mol ;;
  set_r (RVect x) ;;;
  show (ShownVectd x).

(** <<
    bv = AllChem.GetMorganFingerprintAsBitVect(mol, 4, 16)
    bv
    >> *)
Definition cell32 : M unit :=
  mol <- read "mol" v_mol ;;
  b <- AllChem_GetMorganFingerprintAsBitVect mol 4 16 ;;
  set_bv b ;;;
  show (ShownBitVect b).

(** [np.asarray(bv)] *)
Definition cell33 : M unit :=
  bv <- read "bv" v_bv ;;
  a <- np_asarray bv ;;
  show (ShownArray a).

(** The code cells, top to bottom (the first one only imports). *)
Definition cells : list (M unit) :=
  [ cell4; cell6; cell8; cell9; cell13; cell15; cell18; cell20; cell21;
    cell23; cell24; cell28; cell30; cell32; cell33 ].

(** Running cells in order; the first cell that raises ends the run, and what
    it had done until then stays in the kernel. *)
Fixpoint run (cs : list (M unit)) (k : Kernel) : Kernel * option exn :=
  match cs with
  | [] => (k, None)
  | c :: cs' =>
      match c k with
      | (k', Ok _) => run cs' k'
      | (k', Raise e) => (k', Some e)
      end
  end.

Definition run_notebook : Kernel * option exn := run cells fresh.

End Notebook.

Arguments CallMolFromSmiles {E} arg.
Arguments CallAddHs {E} arg.
Arguments CallGetAtoms {E} arg.
Arguments CallGetRingInfo {E} arg.
Arguments CallNumRings {E}.
Arguments CallCalcNumRotatableBonds {E} arg.
Arguments CallBCUT2D {E} arg.
Arguments CallMorgan {E} arg radius nbits.
Arguments CallAsarray {E}.
Arguments Printed {E} line.
Arguments ShownValue {E} v.
Arguments ShownTable {E} t.
Arguments ShownMol {E} m.
Arguments ShownVectd {E} x.
Arguments ShownBitVect {E} b.
Arguments ShownArray {E} a.
Arguments of_parse {E} r.
Arguments fresh E : clear implicits.
Arguments read_json_lines E path : clear implicits.
Arguments print_atoms E : clear implicits.
Arguments cell4 E : clear implicits.
Arguments cell6 E : clear implicits.
Arguments cell8 E : clear implicits.
Arguments cell9 E : clear implicits.
Arguments cell13 E : clear implicits.
Arguments cell15 E : clear implicits.
Arguments cell18 E : clear implicits.
Arguments cell20 E : clear implicits.
Arguments cell21 E : clear implicits.
Arguments cell23 E : clear implicits.
Arguments cell24 E : clear implicits.
Arguments cell28 E : clear implicits.
Arguments cell30 E : clear implicits.
Arguments cell32 E : clear implicits.
Arguments cell33 E : clear implicits.
Arguments cells E : clear implicits.
Arguments run_notebook E : clear implicits.

Unset Implicit Arguments.

(** ** Vocabulary of the statements *)


(** [text] is a file with the lines [ls]; its last line may or may not end in
    a line feed. *)
Definition file_of_lines (text : string) (ls : list string) : Prop :=
  text = PyStr.unlines ls \/ (ls <> [] /\ text = PyStr.join_lines ls).

Section Vocabulary.

Variable E : Env.

Local Abbreviation val := (value (Mol E)).

(** The kernel [k] after further library calls [tr] were recorded. *)
Definition with_trace (k : Kernel E) (tr : list (event E)) : Kernel E :=
  mkKernel (v_data_path k) (v_fp k) (v_record k) (v_data k) (v_mol k)
           (v_toluene k) (v_r k) (v_bv k) (output k) tr.

(** What [Chem.MolFromSmiles] hands back for one cell of a column: the
    molecule, [None] when the library answers that way, or the exception. *)
Definition parse_cell (v : val) : result val :=
  match v with
  | VStr s =>
      match MolFromSmiles E s with
      | Ok r => Ok (of_parse r)
      | Raise e => Raise e
      end
  | _ => Raise (ArgumentError "MolFromSmiles")
  end.

(** The kernel [k] after [data] was bound to [t]. *)
Definition with_data (k : Kernel E) (t : Table (Mol E)) : Kernel E :=
  mkKernel (v_data_path k) (v_fp k) (v_record k) (Some t) (v_mol k)
           (v_toluene k) (v_r k) (v_bv k) (output k) (trace k).

(** The kernel [k] after cell 4 bound [data_path], and after it bound [fp] as
    well. *)
Definition with_path (k : Kernel E) : Kernel E :=
  mkKernel (Some qm9_json_gz) (v_fp k) (v_record k) (v_data k) (v_mol k)
           (v_toluene k) (v_r k) (v_bv k) (output k) (trace k).

Definition with_file (k : Kernel E) (f : TextFile E) : Kernel E :=
  mkKernel (Some qm9_json_gz) (Some f) (v_record k) (v_data k) (v_mol k)
           (v_toluene k) (v_r k) (v_bv k) (output k) (trace k).

(** [l] is one line of a well-formed file and [r] the record on it: the line
    itself holds no line feed, it is not blank, and it decodes to the JSON
    object [r]. *)
Definition json_line (l : string) (r : pyrecord (Mol E)) : Prop :=
  PyStr.no_nl l = true /\
  PyStr.strip l <> EmptyString /\
  json_loads E (PyStr.strip l) = Ok (VDict r).

(** [text] is a well-formed file of newline-delimited JSON with the lines
    [ls] and the records [rs]: line [i] holds the object [rs_i], and the
    lines joined into one JSON array decode to the array of these objects. *)
Definition json_file (text : string) (ls : list string)
           (rs : list (pyrecord (Mol E))) : Prop :=
  file_of_lines text ls /\
  Forall2 json_line ls rs /\
  json_loads E (combine_lines (map PyStr.strip ls))
  = Ok (VList (map (@VDict (Mol E)) rs)).

(** The cell that [read_json] stores for record [r] under the label [c] when
    the file holds the records [rs]: the conversion of what the record has
    there, decided on the column of all the records. *)
Definition loaded_cell (rs : list (pyrecord (Mol E))) (c : string)
           (r : pyrecord (Mol E)) : val :=
  pd_infer E c (map (cell c) rs) (cell c r).

(** The table cell 8 binds to [data] when the file holds the records [rs]:
    the table of the records, converted, cut to its first 1000 rows. *)
Definition loaded_table (rs : list (pyrecord (Mol E))) : Table (Mol E) :=
  head 1000 (convert (pd_infer E) (from_records rs)).

(** A molecule obtained from a successful [MolFromSmiles], possibly turned
    into its explicit-hydrogen form afterwards. *)
Inductive parsed : Mol E -> Prop :=
| parsed_smiles (s : string) (m : Mol E) :
    MolFromSmiles E s = Ok (Some m) -> parsed m
| parsed_hs (m m' : Mol E) :
    parsed m -> AddHs E m = Ok m' -> parsed m'.

(** The value handed to a ring-information, descriptor or fingerprint call. *)
Definition descriptor_arg (ev : event E) : option val :=
  match ev with
  | CallGetRingInfo v => Some v
  | CallCalcNumRotatableBonds v => Some v
  | CallBCUT2D v => Some v
  | CallMorgan v _ _ => Some v
  | _ => None
  end.

Definition ready_val (v : val) : Prop := exists m, v = VMol m /\ parsed m.

Definition safe (ev : event E) : Prop :=
  forall v, descriptor_arg ev = Some v -> ready_val v.

Definition trace_safe (k : Kernel E) : Prop := Forall safe (trace k).

(** A variable that holds, if anything, [None] or a parsed molecule. *)
Definition var_ok (o : option val) : Prop :=
  forall v, o = Some v -> v = VNone \/ ready_val v.

(** A variable that holds a parsed molecule. *)
Definition ready (o : option val) : Prop :=
  exists v, o = Some v /\ ready_val v.

(** The stages of the notebook: after [mol] was assigned, after a method was
    called on it, and the same two for [toluene]. *)
Definition stage1 (k : Kernel E) : Prop := trace_safe k /\ var_ok (v_mol k).
Definition stage2 (k : Kernel E) : Prop := trace_safe k /\ ready (v_mol k).
Definition stage3 (k : Kernel E) : Prop := stage2 k /\ var_ok (v_toluene k).
Definition stage4 (k : Kernel E) : Prop := stage2 k /\ ready (v_toluene k).

(** [c] started in a kernel satisfying [P] ends in one satisfying [Q], or
    raises and leaves a kernel whose recorded calls are all safe. *)
Definition hoare (P : Kernel E -> Prop) (c : M E unit) (Q : Kernel E -> Prop)
  : Prop :=
  forall k, P k ->
    match c k with
    | (k', Ok _) => Q k'
    | (k', Raise _) => trace_safe k'
    end.

End Vocabulary.

(** The lines printed so far, and the decoded values displayed so far. *)
Definition printed_lines {E : Env} (k : Kernel E) : list string :=
  flat_map (fun s => match s with Printed line => [line] | _ => [] end)
           (output k).

Definition shown_values {E : Env} (k : Kernel E) : list (value (Mol E)) :=
  flat_map (fun s => match s with ShownValue v => [v] | _ => [] end)
           (output k).

(** The names of the ring-information, descriptor and fingerprint calls
    recorded so far. *)
Definition descriptor_calls {E : Env} (k : Kernel E) : list string :=
  flat_map (fun ev => match ev with
                      | CallGetRingInfo _ => ["GetRingInfo"]
                      | CallCalcNumRotatableBonds _ => ["CalcNumRotatableBonds"]
                      | CallBCUT2D _ => ["BCUT2D"]
                      | CallMorgan _ r n =>
                          ["GetMorganFingerprintAsBitVect " ++ PyStr.show_Z r
                             ++ " " ++ PyStr.show_Z n]
                      | _ => []
                      end)
           (trace k).

(** ** Outputs stored in the notebook

    The text the notebook file keeps under its code cells, from the run its
    author saved. *)

Module Stored.

Definition cell18 : list string :=
  [ "Atom 0 is an C"; "Atom 1 is an C"; "Atom 2 is an C"; "Atom 3 is an O" ].

Definition cell21 : list string :=
  [ "Atom 0 is an C"; "Atom 1 is an C"; "Atom 2 is an C"; "Atom 3 is an O";
    "Atom 4 is an H"; "Atom 5 is an H"; "Atom 6 is an H"; "Atom 7 is an H";
    "Atom 8 is an H"; "Atom 9 is an H"; "Atom 10 is an H"; "Atom 11 is an H" ].

Definition cell24 : list string := [ "Toluene has 1 ring" ].

Definition cell28 : list string := [ "Toluene has 0 rotatable bonds" ].

Definition cell33 : list Z :=
  [0; 1; 1; 1; 1; 1; 0; 1; 0; 0; 1; 0; 0; 1; 0; 1]%Z.

End Stored.

(** ** A laboratory environment

    A small, fully computable stand-in for the external world, used to run the
    notebook inside Rocq.  Its SMILES reader covers the organic subset (atoms,
    bond symbols, branches, ring-closure digits) and answers [None] for any
    other string, which is how RDKit's [MolFromSmiles] reports a string it
    cannot parse; hydrogens are added from the usual valences.  The descriptor
    and fingerprint entry points, whose values the development never inspects,
    are simple placeholders of the right shape. *)

Module Lab.

Record mol : Type := mkMol {
  atoms : list (string * bool);     (* element symbol, aromatic flag *)
  bonds : list (nat * nat * nat)    (* begin atom, end atom, order *)
}.

Record reader : Type := mkReader {
  r_atoms : list (string * bool);
  r_bonds : list (nat * nat * nat);
  r_prev : option nat;              (* the atom the next one bonds to *)
  r_order : nat;                    (* order of the pending bond *)
  r_stack : list nat;               (* atoms at which a branch was opened *)
  r_open : list (ascii * nat)       (* ring-closure digits waiting for a partner *)
}.

Definition start : reader := mkReader [] [] None 1 [] [].

Definition add_atom (sym : string) (arom : bool) (r : reader) : reader :=
  let i := length (r_atoms r) in
  mkReader (r_atoms r ++ [(sym, arom)])%list
           (match r_prev r with
            | Some p => (r_bonds r ++ [(p, i, r_order r)])%list
            | None => r_bonds r
            end)
           (Some i) 1 (r_stack r) (r_open r).

Fixpoint take_open (d : ascii) (o : list (ascii * nat))
  : option (nat * list (ascii * nat)) :=
  match o with
  | [] => None
  | (d', a) :: o' =>
      if Ascii.eqb d d' then Some (a, o')
      else match take_open d o' with
           | Some (b, rest) => Some (b, (d', a) :: rest)
           | None => None
           end
  end.

Definition is_digit (c : ascii) : bool :=
  let n := nat_of_ascii c in ((48 <=? n)%nat && (n <=? 57)%nat).

Definition is_char (c : ascii) (s : string) : bool :=
  String.eqb (String c EmptyString) s.

Definition organic (c : ascii) : option (string * bool) :=
  if is_char c "B" then Some ("B", false)
  else if is_char c "C" then Some ("C", false)
  else if is_char c "N" then Some ("N", false)
  else if is_char c "O" then Some ("O", false)
  else if is_char c "P" then Some ("P", false)
  else if is_char c "S" then Some ("S", false)
  else if is_char c "F" then Some ("F", false)
  else if is_char c "I" then Some ("I", false)
  else if is_char c "c" then Some ("C", true)
  else if is_char c "n" then Some ("N", true)
  else if is_char c "o" then Some ("O", true)
  else if is_char c "s" then Some ("S", true)
  else None.

Definition bond_order (c : ascii) : option nat :=
  if is_char c "-" then Some 1
  else if is_char c "=" then Some 2
  else if is_char c "#" then Some 3
  else None.

Definition halogen (c d : ascii) : option string :=
  if is_char c "C" && is_char d "l" then Some "Cl"
  else if is_char c "B" && is_char d "r" then Some "Br"
  else None.

(** One character [c] of the string, with [continue] reading what follows. *)
Definition read_char (c : ascii) (continue : reader -> option reader)
           (r : reader) : option reader :=
  match organic c, bond_order c with
  | Some (sym, arom), _ => continue (add_atom sym arom r)
  | None, Some o =>
      continue (mkReader (r_atoms r) (r_bonds r) (r_prev r) o
                         (r_stack r) (r_open r))
  | None, None =>
      if is_char c "(" then
        match r_prev r with
        | Some p =>
            continue (mkReader (r_atoms r) (r_bonds r) (r_prev r)
                               (r_order r) (p :: r_stack r) (r_open r))
        | None => None
        end
      else if is_char c ")" then
        match r_stack r with
        | p :: st =>
            continue (mkReader (r_atoms r) (r_bonds r) (Some p) 1
                               st (r_open r))
        | [] => None
        end
      else if is_digit c then
        match r_prev r with
        | None => None
        | Some p =>
            match take_open c (r_open r) with
            | Some (a, rest) =>
                continue (mkReader (r_atoms r)
                                   (r_bonds r ++ [(a, p, r_order r)])%list
                                   (r_prev r) 1 (r_stack r) rest)
            | None =>
                continue (mkReader (r_atoms r) (r_bonds r) (r_prev r)
                                   (r_order r) (r_stack r)
                                   ((c, p) :: r_open r))
            end
        end
      else None
  end.

Fixpoint read_smiles (s : string) (r : reader) : option reader :=
  match s with
  | EmptyString =>
      match r_stack r, r_open r with
      | [], [] => Some r
      | _, _ => None
      end
  | String c s' =>
      match s' with
      | String d s'' =>
          match halogen c d with
          | Some sym => read_smiles s'' (add_atom sym false r)
          | None => read_char c (read_smiles s') r
          end
      | EmptyString => read_char c (read_smiles s') r
      end
  end.

Definition mol_from_smiles (s : string) : option mol :=
  match read_smiles s start with
  | Some r => Some (mkMol (r_atoms r) (r_bonds r))
  | None => None
  end.

Definition valence (sym : string) : nat :=
  if String.eqb sym "C" then 4
  else if String.eqb sym "N" then 3
  else if String.eqb sym "B" then 3
  else if String.eqb sym "P" then 3
  else if String.eqb sym "O" then 2
  else if String.eqb sym "S" then 2
  else if String.eqb sym "H" then 0
  else 1.

Definition used (i : nat) (bs : list (nat * nat * nat)) : nat :=
  fold_right (fun b acc =>
                match b with
                | (x, y, o) =>
                    (if (x =? i)%nat || (y =? i)%nat then o else 0) + acc
                end) 0 bs.

Definition implicit_hs (m : mol) (i : nat) (a : string * bool) : nat :=
  valence (fst a) - used i (bonds m) - (if snd a then 1 else 0).

Definition hydrogens (m : mol) : list nat :=
  map (fun p => implicit_hs m (fst p) (snd p))
      (combine (seq 0 (length (atoms m))) (atoms m)).

Definition add_hs (m : mol) : mol :=
  let n := length (atoms m) in
  let owners := flat_map (fun p => repeat (fst p) (snd p))
                         (combine (seq 0 n) (hydrogens m)) in
  mkMol (atoms m ++ map (fun _ => ("H", false)) owners)%list
        (bonds m ++ map (fun p => (snd p, n + fst p, 1))
                        (combine (seq 0 (length owners)) owners))%list.

(** The chain of a SMILES string is connected, so the number of independent
    rings is the number of bonds beyond a spanning tree. *)
Definition ring_count (m : mol) : Z :=
  Z.of_nat (length (bonds m) + 1 - length (atoms m)).

Definition fingerprint (m : mol) (radius nbits : Z) : result (list bool) :=
  if (nbits <=? 0)%Z then Raise (ExternalError "GetMorganFingerprintAsBitVect" 1)
  else
    let n := Z.to_nat nbits in
    let hits := map (fun p => (String.length (fst (snd p)) + 3 * fst p
                               + Z.to_nat radius) mod n)
                    (combine (seq 0 (length (atoms m))) (atoms m)) in
    Ok (map (fun i => existsb (Nat.eqb i) hits) (seq 0 n)).

(** *** Records on disk *)

Definition quote : string := String "034"%char EmptyString.

Definition dump_value (v : value mol) : string :=
  match v with
  | VStr s => quote ++ s ++ quote
  | VInt z => PyStr.show_Z z
  | VFloat m e => PyStr.show_Z m ++ "e" ++ PyStr.show_Z e
  | VBool true => "true"
  | VBool false => "false"
  | _ => "null"
  end.

Fixpoint dump_fields (r : pyrecord mol) : string :=
  match r with
  | [] => EmptyString
  | [(k, v)] => quote ++ k ++ quote ++ ":" ++ dump_value v
  | (k, v) :: r' =>
      quote ++ k ++ quote ++ ":" ++ dump_value v ++ "," ++ dump_fields r'
  end.

(** One line of the file: the record as a JSON object. *)
Definition dumps (r : pyrecord mol) : string := "{" ++ dump_fields r ++ "}".

(** What the laboratory decodes.  The decoder knows the records [file] and
    reads white space the way JSON does between tokens: a text that, white
    space apart, is the line of one of the records decodes to that record,
    and the bracketed, comma-joined lines of all of them decode to the array
    of the records. *)
Fixpoint squeeze (s : string) : string :=
  match s with
  | EmptyString => EmptyString
  | String c s' =>
      if PyStr.is_space c then squeeze s' else String c (squeeze s')
  end.

Fixpoint loads_in (file : list (pyrecord mol)) (line : string)
  : result (value mol) :=
  match file with
  | [] => Raise (ExternalError "json.loads" 1)
  | r :: file' =>
      if String.eqb line (dumps r) then Ok (VDict r) else loads_in file' line
  end.

Definition decode (file : list (pyrecord mol)) (s : string)
  : result (value mol) :=
  if String.eqb (squeeze s) (combine_lines (map dumps file))
  then Ok (VList (map (@VDict mol) file))
  else loads_in file (squeeze s).

(** The column conversion of the laboratory: a column in which every cell is
    a string of decimal digits becomes a column of integers, which is what
    [read_json] does to such a column; any other column is left as it is. *)
Fixpoint all_digits (s : string) : bool :=
  match s with
  | EmptyString => true
  | String c s' => is_digit c && all_digits s'
  end.

Fixpoint digits_value (s : string) (acc : Z) : Z :=
  match s with
  | EmptyString => acc
  | String c s' =>
      digits_value s' (10 * acc + Z.of_nat (nat_of_ascii c - 48))%Z
  end.

Definition numeric (v : value mol) : bool :=
  match v with
  | VStr s => negb (PyStr.is_empty s) && all_digits s
  | _ => false
  end.

Definition infer (label : string) (col : list (value mol)) (v : value mol)
  : value mol :=
  if forallb numeric col
  then match v with
       | VStr s => VInt (digits_value s 0)
       | _ => v
       end
  else v.

(** The world in which the data file has the characters [text] and the
    decoder knows the records [file]. *)
Definition env_on (text : string) (file : list (pyrecord mol)) : Env :=
  mkEnv (RingInfo := Z) (Vectd := list Z) (TextFile := string)
    (fun path => if String.eqb path qm9_json_gz
                 then Ok text
                 else Raise (ExternalError "gzip.open" 2))
    (fun s => Ok (PyStr.readline s))
    (decode file)
    (fun path => if String.eqb path qm9_json_gz
                 then Ok text
                 else Raise (ExternalError "read_json" 2))
    infer
    (fun s => Ok (mol_from_smiles s))
    (fun m => Ok (add_hs m))
    (fun m => Ok (map fst (atoms m)))
    (fun m => Ok (ring_count m))
    (fun n => Ok n)
    (fun m => Ok 0%Z)
    (fun m => Ok [])
    fingerprint
    (fun b => Ok (map (fun x : bool => if x then 1%Z else 0%Z) b)).

(** The world in which the data file holds the records [file], one per
    line. *)
Definition env (file : list (pyrecord mol)) : Env :=
  env_on (PyStr.unlines (map dumps file)) file.

(** The first five molecules of the dataset, with the three fields the
    notebook displays. *)
Definition qm9_row (smiles inchi : string) (u : Z) : pyrecord mol :=
  [("inchi_0", VStr inchi); ("index", VInt 0); ("smiles_0", VStr smiles);
   ("u", VFloat u (-6))].

Definition qm9_head : list (pyrecord mol) :=
  [ qm9_row "C" "InChI=1S/CH4/h1H4" (-40476062);
    qm9_row "N" "InChI=1S/H3N/h1H3" (-56523026);
    qm9_row "O" "InChI=1S/H2O/h1H2" (-76401867);
    qm9_row "C#C" "InChI=1S/C2H2/c1-2/h1-2H" (-77305527);
    qm9_row "C#N" "InChI=1S/CHN/c1-2/h1H" (-93409370) ].

(** The world whose data file holds those five records. *)
Definition world : Env := env qm9_head.

Definition lines : list string := map dumps qm9_head.

Definition table : Table mol := from_records qm9_head.

(** The kernel of [world] once [data] is bound to the table of the file. *)
Definition loaded : Kernel world :=
  mkKernel (E := world) None None None (Some table) None None None None [] [].

(** The kernel of [world] once [data_path] is bound. *)
Definition pathed : Kernel world :=
  mkKernel (E := world) (Some qm9_json_gz) None None None None None None None
           [] [].

(** A table whose SMILES column has a string with an unclosed branch between
    two proper ones. *)
Definition mixed : Table mol :=
  mkTable 3 [("smiles_0", [VStr "C"; VStr "C("; VStr "N"])].

Definition loaded_mixed : Kernel world :=
  mkKernel (E := world) None None None (Some mixed) None None None None [] [].

(** A table in which one molecule has no SMILES at all. *)
Definition gappy : Table mol :=
  mkTable 2 [("smiles_0", [VStr "C"; VNaN])].

Definition loaded_gappy : Kernel world :=
  mkKernel (E := world) None None None (Some gappy) None None None None [] [].

(** A table that already has a column labelled [mol], as a file whose records
    have that key gives it. *)
Definition named : Table mol :=
  mkTable 1 [("mol", [VStr "methane"]); ("smiles_0", [VStr "C"])].

Definition loaded_named : Kernel world :=
  mkKernel (E := world) None None None (Some named) None None None None [] [].

(** A data file whose only record has a SMILES string with an unclosed
    branch. *)
Definition bad_file : list (pyrecord mol) :=
  [ qm9_row "C(" "InChI=1S/CH4/h1H4" (-40476062) ].






End Lab.


(** ** Vocabulary of the further statements *)

(** The lines the atom loop prints for the symbols [syms]: one per atom,
    numbered from 0. *)
Definition atom_lines (syms : list string) : list string :=
  map (fun p => atom_line (fst p) (snd p))
      (combine (seq 0 (length syms)) syms).


(** Nothing but parsing calls was recorded, [toluene] is unbound, and [mol]
    holds no molecule. *)
Definition no_molecule {E : Env} (k : Kernel E) : Prop :=
  Forall (fun ev => exists v, ev = CallMolFromSmiles v) (trace k) /\
  v_toluene k = None /\
  (v_mol k = None \/ v_mol k = Some VNone).

(** The laboratory with a parser that understands no string at all. *)
Module Blind.

Definition world : Env :=
  mkEnv (gzip_open Lab.world) (fp_readline Lab.world) (json_loads Lab.world)
        (pd_read Lab.world) (pd_infer Lab.world)
        (fun _ => Ok None)
        (AddHs Lab.world) (GetAtomSymbols Lab.world) (GetRingInfo Lab.world)
        (NumRings Lab.world) (CalcNumRotatableBonds Lab.world)
        (BCUT2D Lab.world) (GetMorganFingerprintAsBitVect Lab.world)
        (asarray Lab.world).

End Blind.

(** What the laboratory answers on the file of five records, computed once:
    the molecules of the two literals, the column of parsed molecules, the
    displayed table and the fingerprint. *)
Module Bench.

Definition propanol : Lab.mol :=
  Eval vm_compute in
    match Lab.mol_from_smiles "CCCO" with
    | Some m => m
    | None => Lab.mkMol [] []
    end.

Definition propanol_hs : Lab.mol := Eval vm_compute in Lab.add_hs propanol.

Definition toluene : Lab.mol :=
  Eval vm_compute in
    match Lab.mol_from_smiles "Cc1ccccc1" with
    | Some m => m
    | None => Lab.mkMol [] []
    end.

Definition smiles : list (value Lab.mol) :=
  [VStr "C"; VStr "N"; VStr "O"; VStr "C#C"; VStr "C#N"].

Definition answers : list (value Lab.mol) :=
  Eval vm_compute in
    map (fun v => match v with
                  | VStr s => match Lab.mol_from_smiles s with
                              | Some m => VMol m
                              | None => VNone
                              end
                  | _ => VNone
                  end) smiles.

(** The table the loader builds from the five records. *)
Definition frame : Table Lab.mol :=
  Eval vm_compute in head 1000 (convert Lab.infer (from_records Lab.qm9_head)).

Definition displayed : Table Lab.mol :=
  Eval vm_compute in
    match getitem_list frame ["smiles_0"; "inchi_0"; "u"] with
    | Ok p => p
    | Raise _ => mkTable 0 []
    end.

Definition bits : list bool :=
  Eval vm_compute in
    match Lab.fingerprint propanol_hs 4 16 with
    | Ok b => b
    | Raise _ => []
    end.

Definition array : list Z :=
  Eval vm_compute in map (fun x : bool => if x then 1%Z else 0%Z) bits.

End Bench.

(** * Properties *)

(** ** Lists and tables *)

Section TableFacts.

Variable M : Type.


Lemma head_count_nonneg (n : Z) (r : nat) :
  (0 <= n)%Z -> head_count n r = Nat.min (Z.to_nat n) r.
Proof.
  intros Hn. unfold head_count.
  destruct (Z.ltb_spec n 0); [lia | reflexivity].
Qed.


Lemma columns_head (n : Z) (t : Table M) : columns (head n t) = columns t.
Proof.
  unfold columns, head. simpl. rewrite map_map. reflexivity.
Qed.



Lemma get_col_In (c : string) (cs : list (string * list (value M))) :
  In c (map fst cs) -> exists vs, get_col c cs = Some vs.
Proof.
  induction cs as [|[c' ws] cs IH]; simpl; [tauto|].
  intros [Heq | Hin].
  - subst. rewrite String.eqb_refl. eauto.
  - destruct (String.eqb c c'); eauto.
Qed.

Lemma get_col_None (c : string) (cs : list (string * list (value M))) :
  ~ In c (map fst cs) -> get_col c cs = None.
Proof.
  induction cs as [|[c' ws] cs IH]; simpl; [reflexivity|].
  intros Hn. destruct (String.eqb_spec c c'); [subst; tauto|].
  apply IH. tauto.
Qed.

Lemma absent_In (c : string) (cs : list (string * list (value M))) :
  absent cs c = true <-> ~ In c (map fst cs).
Proof.
  unfold absent. split.
  - intros H Hin. destruct (get_col_In c cs Hin) as (vs & Hvs).
    rewrite Hvs in H. discriminate.
  - intros Hn. now rewrite (get_col_None c cs Hn).
Qed.

Lemma filter_absent_nil (cs : list (string * list (value M)))
      (names : list string) :
  filter (absent cs) names = [] <-> forall c, In c names -> In c (map fst cs).
Proof.
  induction names as [|c names IH]; simpl.
  - split; [intros _ x [] | reflexivity].
  - destruct (absent cs c) eqn:Hc.
    + split; [discriminate|]. intros Hall. exfalso.
      apply (proj1 (absent_In c cs) Hc). apply Hall. now left.
    + rewrite IH. split.
      * intros Hall x [<- | Hx]; [|now apply Hall].
        unfold absent in Hc. destruct (get_col c cs) as [vs|] eqn:Hvs;
          [|discriminate].
        clear - Hvs. induction cs as [|[c' ws] cs IH]; simpl in *;
          [discriminate|].
        destruct (String.eqb_spec c c'); [now left | right; auto].
      * intros Hall x Hx. apply Hall. now right.
Qed.

(** What [pick] keeps are the listed labels that are columns, each with the
    cells it has in the table. *)
Lemma pick_cells (cs : list (string * list (value M))) (names : list string) :
  Forall (fun p => get_col (fst p) cs = Some (snd p)) (pick cs names).
Proof.
  induction names as [|c names IH]; simpl; [constructor|].
  destruct (get_col c cs) as [vs|] eqn:Hc; [|exact IH].
  constructor; assumption.
Qed.

Lemma pick_labels (cs : list (string * list (value M))) (names : list string) :
  (forall c, In c names -> In c (map fst cs)) ->
  map fst (pick cs names) = names.
Proof.
  induction names as [|c names IH]; intros Hall; simpl; [reflexivity|].
  destruct (get_col_In c cs) as [vs Hvs]; [apply Hall; now left|].
  rewrite Hvs. simpl. f_equal. apply IH. intros x Hx. apply Hall. now right.
Qed.

(** Selecting listed columns succeeds when every label is a column, and then
    yields the labels as listed, each with the cells it has in the table. *)
Lemma select_ok (cs : list (string * list (value M))) (names : list string) :
  (forall c, In c names -> In c (map fst cs)) ->
  exists sel, select cs names = Ok sel /\
              map fst sel = names /\
              Forall (fun p => get_col (fst p) cs = Some (snd p)) sel.
Proof.
  intros Hall. exists (pick cs names). unfold select.
  rewrite (proj2 (filter_absent_nil cs names) Hall).
  repeat split; [now apply pick_labels | apply pick_cells].
Qed.



Lemma get_col_select (cs sel : list (string * list (value M))) (c : string) :
  Forall (fun p => get_col (fst p) cs = Some (snd p)) sel ->
  In c (map fst sel) -> get_col c sel = get_col c cs.
Proof.
  induction 1 as [|[c' vs] sel Hhd _ IH]; simpl; [tauto|].
  intros Hin. destruct (String.eqb_spec c c') as [->|Hne].
  - simpl in Hhd. now rewrite Hhd.
  - apply IH. destruct Hin; [congruence | assumption].
Qed.

(** A label that is not yet a column is appended; nothing else moves. *)
Lemma set_col_fresh (c : string) (vs : list (value M))
      (cs : list (string * list (value M))) :
  ~ In c (map fst cs) -> set_col c vs cs = (cs ++ [(c, vs)])%list.
Proof.
  induction cs as [|[c' ws] cs IH]; simpl; [reflexivity|].
  intros Hn. destruct (String.eqb_spec c c'); [subst; tauto|].
  f_equal. apply IH. tauto.
Qed.

(** Assigning a column touches no column with another label. *)
Lemma get_col_set_col_other (c c' : string) (vs : list (value M))
      (cs : list (string * list (value M))) :
  c <> c' -> get_col c (set_col c' vs cs) = get_col c cs.
Proof.
  intros Hne. induction cs as [|[c0 ws] cs IH]; simpl.
  - destruct (String.eqb_spec c c'); [contradiction | reflexivity].
  - destruct (String.eqb_spec c' c0) as [->|Hc0]; simpl.
    + destruct (String.eqb_spec c c0); [contradiction | reflexivity].
    + destruct (String.eqb c c0); [reflexivity | exact IH].
Qed.

Lemma get_col_set_col_same (c : string) (vs : list (value M))
      (cs : list (string * list (value M))) :
  get_col c (set_col c vs cs) = Some vs.
Proof.
  induction cs as [|[c0 ws] cs IH]; simpl.
  - now rewrite String.eqb_refl.
  - destruct (String.eqb c c0) eqn:Hc; simpl; rewrite Hc;
      [reflexivity | exact IH].
Qed.

Lemma set_col_twice (c : string) (vs ws : list (value M))
      (cs : list (string * list (value M))) :
  set_col c vs (set_col c ws cs) = set_col c vs cs.
Proof.
  induction cs as [|[c0 us] cs IH]; simpl.
  - now rewrite String.eqb_refl.
  - destruct (String.eqb c c0) eqn:Hc; simpl; rewrite Hc;
      [reflexivity | now rewrite IH].
Qed.

(** Assigning to a label that is a column keeps the labels and their
    order. *)
Lemma set_col_known (c : string) (vs : list (value M))
      (cs : list (string * list (value M))) :
  In c (map fst cs) -> map fst (set_col c vs cs) = map fst cs.
Proof.
  induction cs as [|[c0 ws] cs IH]; simpl; [tauto|].
  intros Hin. destruct (String.eqb_spec c c0) as [->|Hne]; [reflexivity|].
  simpl. f_equal. apply IH. destruct Hin; [congruence | assumption].
Qed.



Lemma get_col_head (n : Z) (t : Table M) (c : string) :
  get_col c (cols (head n t))
  = option_map (firstn (head_count n (nrows t))) (get_col c (cols t)).
Proof.
  unfold head. cbn [cols]. induction (cols t) as [|[c0 ws] cs IH]; simpl;
    [reflexivity|].
  destruct (String.eqb c c0); [reflexivity | exact IH].
Qed.




(** *** The column conversion keeps the shape of a table *)

Section Conversion.

Variable infer : string -> list (value M) -> value M -> value M.

Lemma columns_convert (t : Table M) : columns (convert infer t) = columns t.
Proof.
  unfold columns, convert. cbn [cols]. rewrite map_map. reflexivity.
Qed.

Lemma get_col_convert (t : Table M) (c : string) :
  get_col c (cols (convert infer t))
  = option_map (fun col => map (infer c col) col) (get_col c (cols t)).
Proof.
  unfold convert. cbn [cols]. induction (cols t) as [|[c0 ws] cs IH]; simpl;
    [reflexivity|].
  destruct (String.eqb_spec c c0) as [->|Hne]; [reflexivity | exact IH].
Qed.


End Conversion.

End TableFacts.

(** ** The parsing cell *)

Section ParsingCell.

Variable E : Env.

Local Abbreviation val := (value (Mol E)).

Lemma Chem_MolFromSmiles_run (v : val) (k : Kernel E) :
  Chem_MolFromSmiles v k
  = (with_trace E k (trace k ++ [CallMolFromSmiles v]), parse_cell E v).
Proof.
  unfold Chem_MolFromSmiles, bind, log, lift, ret, raise, parse_cell,
    with_trace.
  destruct v; simpl; try reflexivity.
  destruct (MolFromSmiles E s); reflexivity.
Qed.

Lemma with_trace_twice (k : Kernel E) (a b : list (event E)) :
  with_trace E (with_trace E k a) b = with_trace E k b.
Proof. reflexivity. Qed.

(** Mapping over a column whose cells all come back. *)
Lemma Series_map_returns (vs ws : list val) :
  Forall2 (fun v w => parse_cell E v = Ok w) vs ws ->
  forall k,
    Series_map (@Chem_MolFromSmiles E) vs k
    = (with_trace E k (trace k ++ map (@CallMolFromSmiles E) vs), Ok ws).
Proof.
  unfold Series_map.
  induction 1 as [|v w vs ws Hv _ IH]; intros k; simpl.
  - unfold ret, with_trace. rewrite app_nil_r. now destruct k.
  - unfold bind at 1. rewrite Chem_MolFromSmiles_run, Hv.
    unfold bind at 1. rewrite IH. unfold ret. simpl.
    rewrite with_trace_twice, <- app_assoc. reflexivity.
Qed.

(** Mapping over a column in which the call on [v] raises: the calls before
    it were made, the exception comes out, no later cell is looked at. *)
Lemma Series_map_raises (pre ws : list val) (v : val) (e : exn)
      (post : list val) :
  Forall2 (fun x w => parse_cell E x = Ok w) pre ws ->
  parse_cell E v = Raise e ->
  forall k,
    Series_map (@Chem_MolFromSmiles E) (pre ++ v :: post) k
    = (with_trace E k (trace k ++ map (@CallMolFromSmiles E) (pre ++ [v])),
       Raise e).
Proof.
  unfold Series_map.
  induction 1 as [|x w pre ws Hx _ IH]; intros Hv k; simpl.
  - unfold bind. now rewrite Chem_MolFromSmiles_run, Hv.
  - unfold bind at 1. rewrite Chem_MolFromSmiles_run, Hx.
    unfold bind at 1. rewrite (IH Hv). simpl.
    rewrite with_trace_twice, <- app_assoc. reflexivity.
Qed.

(** Whatever the column holds, the loop only records parsing calls and binds
    no variable. *)
Lemma Series_map_frame (vs : list val) (k : Kernel E) :
  exists evs r,
    Series_map (@Chem_MolFromSmiles E) vs k = (with_trace E k (trace k ++ evs), r)
    /\ Forall (fun ev => exists v, ev = CallMolFromSmiles v) evs.
Proof.
  unfold Series_map. revert k.
  induction vs as [|v vs IH]; intros k; simpl.
  - exists [], (Ok []). unfold ret, with_trace. rewrite app_nil_r.
    split; [now destruct k | constructor].
  - unfold bind at 1. rewrite Chem_MolFromSmiles_run.
    destruct (parse_cell E v) as [w|e].
    + destruct (IH (with_trace E k (trace k ++ [CallMolFromSmiles v])))
        as (evs & r & Hrun & Hevs).
      unfold bind at 1. rewrite Hrun. simpl.
      exists (CallMolFromSmiles v :: evs).
      rewrite with_trace_twice, <- app_assoc. simpl.
      destruct r as [ws|e].
      * exists (Ok (w :: ws)). split; [reflexivity|].
        constructor; eauto.
      * exists (Raise e). split; [reflexivity|]. constructor; eauto.
    + exists [CallMolFromSmiles v], (Raise e). split; [reflexivity|].
      constructor; eauto.
Qed.

(** The cell completes when the table has the SMILES column and every call
    comes back; the table then carries the answers under the label [mol]. *)
Lemma cell15_returns (k : Kernel E) (t : Table (Mol E)) (vs ws : list val) :
  v_data k = Some t ->
  get_col "smiles_0" (cols t) = Some vs ->
  Forall2 (fun v w => parse_cell E v = Ok w) vs ws ->
  cell15 E k
  = (mkKernel (v_data_path k) (v_fp k)
              (v_record k) (Some (setitem t "mol" ws)) (v_mol k)
              (v_toluene k) (v_r k) (v_bv k) (output k)
              (trace k ++ map (@CallMolFromSmiles E) vs),
     Ok tt).
Proof.
  intros Hdata Hcol Hall.
  unfold cell15, bind, read, lift, getitem, set_data.
  rewrite Hdata, Hcol, (Series_map_returns vs ws Hall). simpl.
  rewrite Hdata. reflexivity.
Qed.

(** The cell raises as soon as one call does, before the assignment. *)
Lemma cell15_raises (k : Kernel E) (t : Table (Mol E))
      (pre ws : list val) (v : val) (e : exn) (post : list val) :
  v_data k = Some t ->
  get_col "smiles_0" (cols t) = Some (pre ++ v :: post)%list ->
  Forall2 (fun x w => parse_cell E x = Ok w) pre ws ->
  parse_cell E v = Raise e ->
  cell15 E k
  = (with_trace E k (trace k ++ map (@CallMolFromSmiles E) (pre ++ [v])),
     Raise e).
Proof.
  intros Hdata Hcol Hpre Hv.
  unfold cell15, bind, read, lift, getitem.
  rewrite Hdata, Hcol, (Series_map_raises pre ws v e post Hpre Hv). reflexivity.
Qed.

End ParsingCell.

(** ** Lines of a text file *)

Module PyStrFacts.
Import PyStr.

Lemma append_nil_r (s : string) : s ++ EmptyString = s.
Proof. induction s as [|c s IH]; simpl; [reflexivity | now rewrite IH]. Qed.


Lemma split_nl_line (l rest : string) :
  no_nl l = true -> split_nl (l ++ String nl rest) = l :: split_nl rest.
Proof.
  induction l as [|c l IH]; simpl; intros Hl; [reflexivity|].
  apply andb_prop in Hl. destruct Hl as [Hc Hl].
  apply negb_true_iff in Hc. rewrite Hc, (IH Hl). reflexivity.
Qed.

Lemma split_nl_unlines (ls : list string) :
  Forall (fun l => no_nl l = true) ls ->
  split_nl (unlines ls) = (ls ++ [EmptyString])%list.
Proof.
  induction 1 as [|l ls Hl _ IH]; simpl; [reflexivity|].
  rewrite (split_nl_line _ _ Hl). now f_equal.
Qed.

Lemma split_nl_no_nl (l : string) : no_nl l = true -> split_nl l = [l].
Proof.
  induction l as [|c l IH]; simpl; intros Hl; [reflexivity|].
  apply andb_prop in Hl. destruct Hl as [Hc Hl].
  apply negb_true_iff in Hc. rewrite Hc, (IH Hl). reflexivity.
Qed.

Lemma split_nl_join_lines (ls : list string) :
  ls <> [] ->
  Forall (fun l => no_nl l = true) ls ->
  split_nl (join_lines ls) = ls.
Proof.
  intros Hne Hall. induction Hall as [|l ls Hl Hall IH]; [congruence|].
  destruct ls as [|l' ls'].
  - simpl. now apply split_nl_no_nl.
  - change (join_lines (l :: l' :: ls'))
      with (l ++ String nl (join_lines (l' :: ls'))).
    rewrite (split_nl_line _ _ Hl). f_equal. apply IH. discriminate.
Qed.

(** *** Stripping *)

Lemma rstrip_all_space (s : string) :
  all_space s = true -> rstrip s = EmptyString.
Proof.
  induction s as [|a s IH]; simpl; [reflexivity|].
  intros H. apply andb_prop in H. destruct H as [Ha Hs].
  now rewrite (IH Hs), Ha.
Qed.

Lemma rstrip_app_all_space (s w : string) :
  all_space w = true -> rstrip (s ++ w) = rstrip s.
Proof.
  intros Hw. induction s as [|a s IH]; simpl.
  - now apply rstrip_all_space.
  - now rewrite IH.
Qed.

Lemma lstrip_all_space (s : string) :
  all_space s = true -> lstrip s = EmptyString.
Proof.
  induction s as [|a s IH]; simpl; [reflexivity|].
  intros H. apply andb_prop in H. destruct H as [Ha Hs].
  rewrite Ha. auto.
Qed.

Lemma lstrip_app (s t : string) :
  lstrip (s ++ t) = if all_space s then lstrip t else lstrip s ++ t.
Proof.
  induction s as [|a s IH]; simpl; [reflexivity|].
  destruct (is_space a); simpl; [exact IH | reflexivity].
Qed.

(** White space after a string does not survive [strip]. *)
Lemma strip_app_all_space (s w : string) :
  all_space w = true -> strip (s ++ w) = strip s.
Proof.
  intros Hw. unfold strip. rewrite lstrip_app.
  destruct (all_space s) eqn:Hs.
  - now rewrite (lstrip_all_space w Hw), (lstrip_all_space s Hs).
  - now apply rstrip_app_all_space.
Qed.


Lemma rstrip_cons_nonspace (c : ascii) (s : string) :
  is_space c = false -> rstrip (String c s) = String c (rstrip s).
Proof.
  intros Hc. simpl. destruct (rstrip s); [now rewrite Hc | reflexivity].
Qed.

Lemma rstrip_cons_kept (c : ascii) (s : string) :
  rstrip s <> EmptyString -> rstrip (String c s) = String c (rstrip s).
Proof.
  intros Hs. simpl. destruct (rstrip s); [congruence | reflexivity].
Qed.

Lemma rstrip_idem (s : string) : rstrip (rstrip s) = rstrip s.
Proof.
  induction s as [|c s IH]; [reflexivity|].
  destruct (rstrip s) as [|a t] eqn:Hr.
  - simpl. rewrite Hr. destruct (is_space c) eqn:Hc; [reflexivity|].
    simpl. now rewrite Hc.
  - rewrite rstrip_cons_kept by (rewrite Hr; discriminate).
    rewrite Hr. rewrite rstrip_cons_kept by (rewrite IH; discriminate).
    now rewrite IH.
Qed.

Lemma lstrip_shape (s : string) :
  lstrip s = EmptyString \/
  exists c t, lstrip s = String c t /\ is_space c = false.
Proof.
  induction s as [|c s IH]; simpl; [now left|].
  destruct (is_space c) eqn:Hc; [exact IH | right; eauto].
Qed.

(** Stripping twice is stripping once. *)
Lemma strip_idem (s : string) : strip (strip s) = strip s.
Proof.
  unfold strip. destruct (lstrip_shape s) as [-> | (c & t & -> & Hc)].
  - reflexivity.
  - rewrite (rstrip_cons_nonspace c t Hc). simpl lstrip. rewrite Hc.
    rewrite <- (rstrip_cons_nonspace c t Hc). apply rstrip_idem.
Qed.


(** *** Reading the first line *)

Lemma readline_app (a s : string) :
  no_nl a = true -> no_cr a = true -> readline (a ++ s) = a ++ readline s.
Proof.
  induction a as [|c a IH]; simpl; intros Hn Hc; [reflexivity|].
  apply andb_prop in Hn. destruct Hn as [Hn1 Hn].
  apply andb_prop in Hc. destruct Hc as [Hc1 Hc].
  apply negb_true_iff in Hn1, Hc1. rewrite Hn1, Hc1. simpl.
  now rewrite IH.
Qed.

(** A line ends at a line feed and at a carriage return alike. *)
Lemma readline_ending (l : string) (c : ascii) (rest : string) :
  no_nl l = true -> no_cr l = true ->
  is_nl c || is_cr c = true ->
  readline (l ++ String c rest) = l ++ String nl EmptyString.
Proof.
  intros Hn Hc He. rewrite readline_app by assumption. simpl.
  now rewrite He.
Qed.

Lemma readline_unended (l : string) :
  no_nl l = true -> no_cr l = true -> readline l = l.
Proof.
  intros Hn Hc. rewrite <- (append_nil_r l) at 1.
  rewrite readline_app by assumption. simpl. apply append_nil_r.
Qed.



End PyStrFacts.

(** ** Records and the table built from them *)

Section RecordFacts.

Variable M : Type.















Lemma columns_from_records (rs : list (pyrecord M)) :
  columns (from_records rs) = union_keys rs.
Proof.
  unfold columns, from_records. cbn [cols]. rewrite map_map. cbn [fst].
  apply map_id.
Qed.


Lemma get_col_keyed (f : string -> list (value M)) (ks : list string)
      (c : string) :
  In c ks -> get_col c (map (fun k => (k, f k)) ks) = Some (f c).
Proof.
  induction ks as [|k ks IH]; simpl; [tauto|].
  intros Hin. destruct (String.eqb_spec c k) as [->|Hne]; [reflexivity|].
  apply IH. destruct Hin; [congruence | assumption].
Qed.

(** The column of a key holds, record by record, the value under that key. *)
Lemma get_col_from_records (rs : list (pyrecord M)) (c : string) :
  In c (union_keys rs) ->
  get_col c (cols (from_records rs)) = Some (map (cell c) rs).
Proof.
  intros Hc. unfold from_records. cbn [cols].
  now rewrite (get_col_keyed (fun k => map (cell k) rs)).
Qed.





Lemma firstn_min_length (A : Type) (a : nat) (l : list A) :
  firstn (Nat.min a (length l)) l = firstn a l.
Proof.
  destruct (Nat.le_ge_cases a (length l)) as [H | H].
  - now rewrite Nat.min_l.
  - rewrite Nat.min_r by assumption. now rewrite !firstn_all2 by lia.
Qed.

End RecordFacts.

(** ** The loader *)

Section Loader.

Variable E : Env.

Lemma json_line_no_nl (ls : list string) (rs : list (pyrecord (Mol E))) :
  Forall2 (json_line E) ls rs -> Forall (fun l => PyStr.no_nl l = true) ls.
Proof.
  induction 1 as [|l r ls rs (Hnl & _) _ IH]; constructor; assumption.
Qed.

Lemma json_line_not_blank (ls : list string) (rs : list (pyrecord (Mol E))) :
  Forall2 (json_line E) ls rs ->
  filter (fun l => negb (PyStr.is_empty l)) (map PyStr.strip ls)
  = map PyStr.strip ls.
Proof.
  induction 1 as [|l r ls rs (_ & Hne & _) _ IH]; simpl; [reflexivity|].
  destruct (PyStr.strip l); [congruence|]. simpl. now f_equal.
Qed.

(** The pieces [read_json] joins are the stripped lines of the file. *)
Lemma json_lines_file (text : string) (ls : list string)
      (rs : list (pyrecord (Mol E))) :
  file_of_lines text ls ->
  Forall2 (json_line E) ls rs ->
  json_lines text = map PyStr.strip ls.
Proof.
  intros [-> | [Hne ->]] Hall; unfold json_lines.
  - rewrite PyStrFacts.split_nl_unlines by (eapply json_line_no_nl; eauto).
    rewrite map_app, filter_app. simpl. rewrite app_nil_r.
    eapply json_line_not_blank; eauto.
  - rewrite PyStrFacts.split_nl_join_lines
      by (try assumption; eapply json_line_no_nl; eauto).
    eapply json_line_not_blank; eauto.
Qed.



Lemma records_of_objects (rs : list (pyrecord (Mol E))) :
  records_of (map (@VDict (Mol E)) rs) = Some rs.
Proof.
  induction rs as [|r rs IH]; simpl; [reflexivity|]. now rewrite IH.
Qed.

Lemma read_json_lines_ok (path text : string) (ls : list string)
      (rs : list (pyrecord (Mol E))) :
  pd_read E path = Ok text ->
  json_file E text ls rs ->
  read_json_lines E path = Ok (convert (pd_infer E) (from_records rs)).
Proof.
  intros Htext (Hfile & Hall & Harray). unfold read_json_lines.
  now rewrite Htext, (json_lines_file text ls rs Hfile Hall), Harray,
    records_of_objects.
Qed.

Lemma cell8_ok (k : Kernel E) (path text : string) (ls : list string)
      (rs : list (pyrecord (Mol E))) :
  v_data_path k = Some path ->
  pd_read E path = Ok text ->
  json_file E text ls rs ->
  cell8 E k
  = (with_data E k (head 1000 (convert (pd_infer E) (from_records rs))),
     Ok tt).
Proof.
  intros Hpath Htext Hfile. unfold cell8, bind, read, lift, set_data.
  now rewrite Hpath, (read_json_lines_ok _ text ls rs Htext Hfile).
Qed.

(** The three ways cell 4 can end: [gzip.open] raises, [readline] raises, or
    the stripped line is bound to [record] and printed. *)
Lemma cell4_run (k : Kernel E) :
  cell4 E k
  = match gzip_open E qm9_json_gz with
    | Raise e => (with_path E k, Raise e)
    | Ok f =>
        match fp_readline E f with
        | Raise e => (with_file E k f, Raise e)
        | Ok line =>
            (mkKernel (Some qm9_json_gz) (Some f) (Some (PyStr.strip line))
                      (v_data k) (v_mol k) (v_toluene k) (v_r k) (v_bv k)
                      (output k ++ [Printed (PyStr.strip line)])%list
                      (trace k),
             Ok tt)
        end
    end.
Proof.
  unfold cell4, bind, set_data_path, read, lift, set_fp, set_record, print,
    show, with_path, with_file.
  cbn [v_data_path v_fp v_record v_data v_mol v_toluene v_r v_bv output
       trace].
  destruct (gzip_open E qm9_json_gz) as [f|e]; [|reflexivity].
  cbn [v_data_path v_fp v_record v_data v_mol v_toluene v_r v_bv output
       trace].
  destruct (fp_readline E f) as [line|e]; reflexivity.
Qed.

End Loader.

(** ** Where the molecules handed to RDKit come from *)

Section Provenance.

Variable E : Env.

Local Abbreviation val := (value (Mol E)).

Lemma safe_snoc (tr : list (event E)) (ev : event E) :
  Forall (safe E) tr -> safe E ev -> Forall (safe E) (tr ++ [ev]).
Proof.
  intros Htr Hev. apply Forall_app. split; [assumption | now constructor].
Qed.

Lemma safe_parse_calls (tr evs : list (event E)) :
  Forall (safe E) tr ->
  Forall (fun ev => exists v, ev = CallMolFromSmiles v) evs ->
  Forall (safe E) (tr ++ evs).
Proof.
  intros Htr Hevs. apply Forall_app. split; [assumption|].
  eapply Forall_impl; [|exact Hevs].
  intros ev (v & ->) w Hw. discriminate.
Qed.

Lemma ready_var_ok (o : option val) : ready E o -> var_ok E o.
Proof.
  intros (v & Hv & Hr) w Hw. right. congruence.
Qed.

(** The printing loop never raises and records no call. *)
Lemma print_loop_run (ps : list (nat * string)) (k : Kernel E) :
  exists out us,
    for_each (fun p => print (atom_line (fst p) (snd p))) ps k
    = (mkKernel (v_data_path k) (v_fp k)
                (v_record k) (v_data k) (v_mol k) (v_toluene k) (v_r k)
                (v_bv k) out (trace k), Ok us).
Proof.
  revert k. induction ps as [|p ps IH]; intros k; simpl.
  - exists (output k), []. unfold ret. now destruct k.
  - unfold bind at 1. unfold print at 1, show at 1. cbv beta iota.
    unfold bind at 1.
    match goal with
    | |- context [for_each ?f ps ?k1] =>
        destruct (IH k1) as (out & us & Hrun); rewrite Hrun
    end.
    simpl. unfold ret. eauto.
Qed.

Ltac open_kernel k :=
  destruct k as [path fp rec data mol tol r bv out tr];
  unfold stage4, stage3, stage2, stage1, trace_safe, var_ok, ready in *;
  simpl in *.

Ltac run_cell :=
  unfold bind, read, lift, ret, raise, log, show, print, set_data_path,
    set_fp, set_record, set_data, set_mol, set_toluene, set_r, set_bv,
    show_val; simpl.

Lemma cell4_safe : hoare E (trace_safe E) (cell4 E) (trace_safe E).
Proof.
  intros k H. open_kernel k. unfold cell4. run_cell.
  destruct (gzip_open E qm9_json_gz) as [f|e]; simpl; [|assumption].
  destruct (fp_readline E f); simpl; assumption.
Qed.

Lemma cell6_safe : hoare E (trace_safe E) (cell6 E) (trace_safe E).
Proof.
  intros k H. open_kernel k. unfold cell6, show_decoded. run_cell.
  destruct rec; simpl; [|assumption].
  destruct (json_loads E s) as [v|e]; simpl; [|assumption].
  destruct v; simpl; assumption.
Qed.

Lemma cell8_safe : hoare E (trace_safe E) (cell8 E) (trace_safe E).
Proof.
  intros k H. open_kernel k. unfold cell8. run_cell.
  destruct path as [p|]; simpl; [|assumption].
  destruct (read_json_lines E p); assumption.
Qed.

Lemma cell9_safe : hoare E (trace_safe E) (cell9 E) (trace_safe E).
Proof.
  intros k H. open_kernel k. unfold cell9. run_cell.
  destruct data; simpl; [|assumption].
  destruct (getitem_list t _); assumption.
Qed.

Lemma cell13_safe : hoare E (trace_safe E) (cell13 E) (stage1 E).
Proof.
  intros k H. unfold cell13, bind at 1. rewrite Chem_MolFromSmiles_run.
  unfold parse_cell. open_kernel k.
  destruct (MolFromSmiles E "CCCO") as [[m|]|e] eqn:Hm; run_cell.
  - split; [apply safe_snoc; [assumption | discriminate]|].
    intros v Hv; injection Hv as <-. right. exists m. split; [reflexivity|].
    now apply parsed_smiles with (s := "CCCO").
  - split; [apply safe_snoc; [assumption | discriminate]|].
    intros v Hv; injection Hv as <-. now left.
  - apply safe_snoc; [assumption | discriminate].
Qed.

Lemma cell15_safe : hoare E (stage1 E) (cell15 E) (stage1 E).
Proof.
  intros k [Htr Hmol]. unfold cell15, bind at 1, read.
  destruct (v_data k) as [t|] eqn:Hdata; [|assumption].
  unfold bind at 1, lift. destruct (getitem t "smiles_0") as [vs|e];
    [|assumption].
  destruct (Series_map_frame E vs k) as (evs & r & Hrun & Hevs).
  unfold bind at 1. rewrite Hrun.
  destruct r as [ws|e]; [|now apply safe_parse_calls].
  unfold bind, read, set_data. simpl. rewrite Hdata. simpl.
  split; [now apply safe_parse_calls | assumption].
Qed.

Lemma print_atoms_safe : hoare E (stage1 E) (print_atoms E) (stage2 E).
Proof.
  intros k [Htr Hmol]. unfold print_atoms, bind at 1, read.
  destruct (v_mol k) as [v|] eqn:Hv; [|assumption].
  destruct (Hmol v eq_refl) as [-> | (m & -> & Hm)]; [exact Htr|].
  unfold method_GetAtoms. unfold bind at 1, bind at 1, log, lift.
  destruct (GetAtomSymbols E m) as [syms|e];
    [|apply safe_snoc; [assumption | discriminate]].
  unfold bind at 1.
  match goal with
  | |- context [for_each ?f ?ps ?k1] =>
      destruct (print_loop_run ps k1) as (out & us & Hrun); rewrite Hrun
  end.
  unfold ret. simpl. split.
  - apply safe_snoc; [assumption | discriminate].
  - exists (VMol m). split; [assumption|]. now exists m.
Qed.

Lemma cell20_safe : hoare E (stage2 E) (cell20 E) (stage2 E).
Proof.
  intros k [Htr (v & Hv & m & -> & Hm)]. open_kernel k. subst mol.
  unfold cell20, Chem_AddHs. run_cell.
  destruct (AddHs E m) as [m'|e] eqn:Hhs; simpl.
  - split; [apply safe_snoc; [assumption | discriminate]|].
    exists (VMol m'). split; [reflexivity|]. exists m'. split; [reflexivity|].
    now apply parsed_hs with (m := m).
  - apply safe_snoc; [assumption | discriminate].
Qed.

Lemma cell23_safe : hoare E (stage2 E) (cell23 E) (stage3 E).
Proof.
  intros k [Htr Hmol]. unfold cell23, bind at 1.
  rewrite Chem_MolFromSmiles_run. unfold parse_cell. open_kernel k.
  destruct (MolFromSmiles E "Cc1ccccc1") as [[m|]|e] eqn:Hm; run_cell.
  - repeat split; [apply safe_snoc; [assumption | discriminate] | assumption |].
    intros v Hv; injection Hv as <-. right. exists m. split; [reflexivity|].
    now apply parsed_smiles with (s := "Cc1ccccc1").
  - repeat split; [apply safe_snoc; [assumption | discriminate] | assumption |].
    intros v Hv; injection Hv as <-. now left.
  - apply safe_snoc; [assumption | discriminate].
Qed.

Lemma cell24_safe : hoare E (stage3 E) (cell24 E) (stage4 E).
Proof.
  intros k [[Htr Hmol] Htol]. open_kernel k.
  unfold cell24. run_cell.
  destruct tol as [v|]; [|assumption]. simpl.
  destruct (Htol v eq_refl) as [-> | (m & -> & Hm)]; [exact Htr|].
  assert (Hring : Forall (safe E) (tr ++ [CallGetRingInfo (VMol m)])).
  { apply safe_snoc; [assumption|]. intros w Hw. injection Hw as <-.
    now exists m. }
  unfold method_GetRingInfo. run_cell.
  destruct (GetRingInfo E m) as [ri|e]; simpl; [|assumption].
  destruct (NumRings E ri) as [n|e]; simpl.
  - repeat split; [apply safe_snoc; [assumption | discriminate] | assumption |].
    exists (VMol m). split; [reflexivity | now exists m].
  - apply safe_snoc; [assumption | discriminate].
Qed.

Lemma cell28_safe : hoare E (stage4 E) (cell28 E) (stage4 E).
Proof.
  intros k [[Htr Hmol] (v & Hv & m & -> & Hm)]. open_kernel k. subst tol.
  assert (Hcall : Forall (safe E) (tr ++ [CallCalcNumRotatableBonds (VMol m)])).
  { apply safe_snoc; [assumption|]. intros w Hw. injection Hw as <-.
    now exists m. }
  unfold cell28, AllChem_CalcNumRotatableBonds. run_cell.
  destruct (CalcNumRotatableBonds E m); simpl; [|assumption].
  repeat split; [assumption | assumption |].
  exists (VMol m). split; [reflexivity | now exists m].
Qed.

Lemma cell30_safe : hoare E (stage4 E) (cell30 E) (stage4 E).
Proof.
  intros k [[Htr (v & Hv & m & -> & Hm)] Htol]. open_kernel k. subst mol.
  assert (Hcall : Forall (safe E) (tr ++ [CallBCUT2D (VMol m)])).
  { apply safe_snoc; [assumption|]. intros w Hw. injection Hw as <-.
    now exists m. }
  unfold cell30, AllChem_BCUT2D. run_cell.
  destruct (BCUT2D E m); simpl; [|assumption].
  repeat split; [assumption | | assumption].
  exists (VMol m). split; [reflexivity | now exists m].
Qed.

Lemma cell32_safe : hoare E (stage4 E) (cell32 E) (stage4 E).
Proof.
  intros k [[Htr (v & Hv & m & -> & Hm)] Htol]. open_kernel k. subst mol.
  assert (Hcall : Forall (safe E) (tr ++ [CallMorgan (VMol m) 4 16])).
  { apply safe_snoc; [assumption|]. intros w Hw. injection Hw as <-.
    now exists m. }
  unfold cell32, AllChem_GetMorganFingerprintAsBitVect. run_cell.
  destruct (GetMorganFingerprintAsBitVect E m 4 16); simpl; [|assumption].
  repeat split; [assumption | | assumption].
  exists (VMol m). split; [reflexivity | now exists m].
Qed.

Lemma cell33_safe : hoare E (stage4 E) (cell33 E) (stage4 E).
Proof.
  intros k [[Htr Hmol] Htol]. open_kernel k.
  unfold cell33, np_asarray. run_cell.
  destruct bv as [b|]; simpl; [|assumption].
  destruct (asarray E b); simpl.
  - repeat split; [apply safe_snoc; [assumption | discriminate] | |];
      assumption.
  - apply safe_snoc; [assumption | discriminate].
Qed.

(** Running the cells in order keeps every recorded call safe, whether the run
    completes or is ended by an exception. *)
Lemma run_cons_safe (P Q : Kernel E -> Prop) (c : M E unit)
      (cs : list (M E unit)) :
  hoare E P c Q ->
  (forall k, Q k -> trace_safe E (fst (run cs k))) ->
  forall k, P k -> trace_safe E (fst (run (c :: cs) k)).
Proof.
  intros Hc Hcs k HP. simpl. specialize (Hc k HP).
  destruct (c k) as [k' [u|e]]; [now apply Hcs | exact Hc].
Qed.

Lemma run_notebook_safe : trace_safe E (fst (run_notebook E)).
Proof.
  unfold run_notebook, cells.
  assert (H0 : trace_safe E (fresh E)) by constructor.
  revert H0. generalize (fresh E).
  apply (run_cons_safe _ _ _ _ cell4_safe).
  apply (run_cons_safe _ _ _ _ cell6_safe).
  apply (run_cons_safe _ _ _ _ cell8_safe).
  apply (run_cons_safe _ _ _ _ cell9_safe).
  apply (run_cons_safe _ _ _ _ cell13_safe).
  apply (run_cons_safe _ _ _ _ cell15_safe).
  apply (run_cons_safe _ _ _ _ print_atoms_safe).
  apply (run_cons_safe _ _ _ _ cell20_safe).
  apply (run_cons_safe (stage2 E) (stage2 E) (cell21 E)).
  { intros k Hk. apply print_atoms_safe. destruct Hk as [Htr Hr].
    split; [assumption | now apply ready_var_ok]. }
  apply (run_cons_safe _ _ _ _ cell23_safe).
  apply (run_cons_safe _ _ _ _ cell24_safe).
  apply (run_cons_safe _ _ _ _ cell28_safe).
  apply (run_cons_safe _ _ _ _ cell30_safe).
  apply (run_cons_safe _ _ _ _ cell32_safe).
  apply (run_cons_safe _ _ _ _ cell33_safe).
  intros k [[Htr _] _]. exact Htr.
Qed.

End Provenance.
(** * Main results *)



(** C10 (as amended).  When the table bound to [data] has the SMILES column
    and every parsing call comes back, the assignment cell completes; the
    table it leaves has the row count of before, holds under [mol] one answer
    per SMILES cell, and has every column with another label as it was.  If
    [mol] was not yet a label, the table is the old one with that one column
    appended as the last.  If it was, no column is added: the labels and
    their order are those of before, and the old cells of [mol] are
    replaced. *)
Theorem mol_column_assigned (E : Env) (k : Kernel E) (t : Table (Mol E))
        (vs ws : list (value (Mol E))) :
  v_data k = Some t ->
  get_col "smiles_0" (cols t) = Some vs ->
  Forall2 (fun v w => parse_cell E v = Ok w) vs ws ->
  exists k' t',
    cell15 E k = (k', Ok tt) /\
    v_data k' = Some t' /\
    nrows t' = nrows t /\
    length ws = length vs /\
    get_col "mol" (cols t') = Some ws /\
    (forall c, c <> "mol" -> get_col c (cols t') = get_col c (cols t)) /\
    (~ In "mol" (columns t) ->
       cols t' = (cols t ++ [("mol", ws)])%list /\
       columns t' = (columns t ++ ["mol"])%list) /\
    (In "mol" (columns t) ->
       columns t' = columns t /\ length (cols t') = length (cols t)).
Proof.
  intros Hdata Hcol Hall.
  eexists; exists (setitem t "mol" ws).
  split; [apply (cell15_returns E k t vs ws Hdata Hcol Hall)|].
  split; [reflexivity|]. split; [reflexivity|].
  split; [symmetry; eapply Forall2_length; eauto|].
  split; [apply get_col_set_col_same|].
  split; [intros c Hc; now apply get_col_set_col_other|].
  split.
  - intros Hnew.
    assert (Hcols : cols (setitem t "mol" ws) = (cols t ++ [("mol", ws)])%list)
      by (apply set_col_fresh; exact Hnew).
    split; [exact Hcols|].
    unfold columns. rewrite Hcols, map_app. reflexivity.
  - intros Hold.
    assert (Hlab : columns (setitem t "mol" ws) = columns t)
      by (apply set_col_known; exact Hold).
    split; [exact Hlab|].
    unfold columns in Hlab. apply (f_equal (@length string)) in Hlab.
    now rewrite !length_map in Hlab.
Qed.

(** C2.  In a run of the notebook, whatever the libraries answer and wherever
    the run ends, every ring-information, descriptor and fingerprint call
    recorded was handed a molecule, and that molecule came out of a successful
    [MolFromSmiles] (directly, or through [AddHs]); [None] never reaches such
    a call. *)
Theorem descriptor_calls_use_parsed_molecules (E : Env) :
  Forall (fun ev =>
            match descriptor_arg E ev with
            | Some v => v <> VNone /\ exists m, v = VMol m /\ parsed E m
            | None => True
            end)
         (trace (fst (run_notebook E))).
Proof.
  eapply Forall_impl; [|apply run_notebook_safe].
  intros ev Hsafe. destruct (descriptor_arg E ev) as [v|] eqn:Hv; [|exact I].
  destruct (Hsafe v Hv) as (m & -> & Hm).
  split; [discriminate | eauto].
Qed.

(** C1 (as amended).  Let the SMILES column of the table bound to [data] be
    [pre ++ v :: post], where the parsing calls on [pre] all come back.  If
    the call on [v] raises [e], the cell raises that same [e]: the calls up to
    [v] were made, nothing was assigned, [data] is still the table it was,
    and a run of cells stops at this one.  If instead the library answers
    [None] for [v] and the calls on [post] come back, the cell completes and
    stores [None] in the [mol] column at the position of [v]. *)
Theorem parse_failure_outcomes (E : Env) (k : Kernel E) (t : Table (Mol E))
        (pre done : list (value (Mol E))) (v : value (Mol E))
        (post : list (value (Mol E))) :
  v_data k = Some t ->
  get_col "smiles_0" (cols t) = Some (pre ++ v :: post)%list ->
  Forall2 (fun x w => parse_cell E x = Ok w) pre done ->
  (forall e, parse_cell E v = Raise e ->
     exists k',
       cell15 E k = (k', Raise e) /\
       v_data k' = Some t /\
       trace k' = (trace k ++ map CallMolFromSmiles (pre ++ [v]))%list /\
       forall rest, run (cell15 E :: rest) k = (k', Some e))
  /\
  (forall rest, parse_cell E v = Ok VNone ->
     Forall2 (fun x w => parse_cell E x = Ok w) post rest ->
     exists k',
       cell15 E k = (k', Ok tt) /\
       v_data k' = Some (setitem t "mol" (done ++ VNone :: rest)%list)).
Proof.
  intros Hdata Hcol Hpre. split.
  - intros e Hv.
    pose proof (cell15_raises E k t pre done v e post Hdata Hcol Hpre Hv)
      as Hrun.
    eexists. split; [exact Hrun|].
    split; [exact Hdata|]. split; [reflexivity|].
    intros rest. simpl. now rewrite Hrun.
  - intros rest Hv Hpost.
    assert (Hall : Forall2 (fun x w => parse_cell E x = Ok w)
                           (pre ++ v :: post)%list
                           (done ++ VNone :: rest)%list).
    { apply Forall2_app; [assumption|]. now constructor. }
    eexists. split;
      [apply (cell15_returns E k t _ _ Hdata Hcol Hall) | reflexivity].
Qed.


(** ** The notebook run in the laboratory *)

(** Run on the five-record file, the notebook completes and prints, after
    the first line of the file, what the stored notebook shows for 1-propanol
    and toluene. *)
Example lab_run_output :
  snd (run_notebook Lab.world) = None /\
  skipn 1 (printed_lines (fst (run_notebook Lab.world)))
  = (Stored.cell18 ++ Stored.cell21 ++ Stored.cell24 ++ Stored.cell28)%list.
Proof. split; vm_compute; reflexivity. Qed.

(** The stored fingerprint of cell 33 has 16 entries, each 0 or 1. *)
Example stored_fingerprint_shape :
  length Stored.cell33 = 16 /\
  Forall (fun b => b = 0%Z \/ b = 1%Z) Stored.cell33.
Proof.
  split; [reflexivity|]. unfold Stored.cell33.
  repeat (apply Forall_cons; [(now left) || (now right)|]). apply Forall_nil.
Qed.

(** In that run all four kinds of descriptor call are reached. *)
Example lab_run_descriptor_calls :
  descriptor_calls (fst (run_notebook Lab.world))
  = [ "GetRingInfo"; "CalcNumRotatableBonds"; "BCUT2D";
      "GetMorganFingerprintAsBitVect 4 16" ].
Proof. vm_compute. reflexivity. Qed.

(** On that file the first three cells leave, as row 0 of [data], the very
    record that the manual path displays. *)
Example lab_row_0_is_first_record :
  shown_values
    (fst (run [cell4 Lab.world; cell6 _; cell8 _] (fresh Lab.world)))
  = [ VDict (Lab.qm9_row "C" "InChI=1S/CH4/h1H4" (-40476062)) ] /\
  option_map (fun t => row t 0)
    (v_data (fst (run [cell4 Lab.world; cell6 _; cell8 _] (fresh Lab.world))))
  = Some (Lab.qm9_row "C" "InChI=1S/CH4/h1H4" (-40476062)).
Proof. split; vm_compute; reflexivity. Qed.

(** A cell without a SMILES string makes the parsing cell raise at the C++
    boundary, and [data] keeps the columns it had. *)
Example lab_missing_smiles_raises :
  snd (cell15 Lab.world Lab.loaded_gappy)
  = Raise (ArgumentError "MolFromSmiles") /\
  v_data (fst (cell15 Lab.world Lab.loaded_gappy)) = Some Lab.gappy.
Proof. split; vm_compute; reflexivity. Qed.

(** C1, counterexample.  In the laboratory the string ["C("] (an unclosed
    branch) is not parsed into a molecule: the library answers [None].  On a
    data file whose record carries that string the whole notebook
    nevertheless runs to its end without any exception, and the [mol] column
    of [data] holds [None] for that record. *)
Lemma malformed_smiles_is_stored :
  MolFromSmiles (Lab.env Lab.bad_file) "C(" = Ok None /\
  snd (run_notebook (Lab.env Lab.bad_file)) = None /\
  option_map (fun t => (get_col "smiles_0" (cols t), get_col "mol" (cols t)))
             (v_data (fst (run_notebook (Lab.env Lab.bad_file))))
  = Some (Some [VStr "C("], Some [VNone]).
Proof. repeat split; vm_compute; reflexivity. Qed.



(** C10, counterexample.  On a table that already has a column labelled
    [mol], the cell completes and adds no column: the labels are the two of
    before, and the cells that [mol] held are replaced by the parser's
    answer.  Likewise when the cell is run a second time on the table of the
    five-record file: the first run appends [mol] as a fifth column, the
    second leaves the five columns. *)
Lemma mol_column_overwritten :
  (columns Lab.named = ["mol"; "smiles_0"] /\
   get_col "mol" (cols Lab.named) = Some [VStr "methane"] /\
   snd (cell15 Lab.world Lab.loaded_named) = Ok tt /\
   option_map (fun t => columns t)
     (v_data (fst (cell15 Lab.world Lab.loaded_named)))
   = Some ["mol"; "smiles_0"] /\
   option_map (fun t => get_col "mol" (cols t))
     (v_data (fst (cell15 Lab.world Lab.loaded_named)))
   = Some (Some [VMol (Lab.mkMol [("C", false)] [])])) /\
  (columns Lab.table = ["inchi_0"; "index"; "smiles_0"; "u"] /\
   option_map (fun t => columns t) (v_data (fst (cell15 Lab.world Lab.loaded)))
   = Some ["inchi_0"; "index"; "smiles_0"; "u"; "mol"] /\
   snd (run [cell15 Lab.world; cell15 Lab.world] Lab.loaded) = None /\
   option_map (fun t => columns t)
     (v_data (fst (run [cell15 Lab.world; cell15 Lab.world] Lab.loaded)))
   = Some ["inchi_0"; "index"; "smiles_0"; "u"; "mol"]).
Proof. repeat split; vm_compute; reflexivity. Qed.

(** ** The theorems at the laboratory file *)

Ltac lab_lines :=
  repeat constructor; try (vm_compute; reflexivity); vm_compute; discriminate.

Ltac lab_parsed := repeat constructor; vm_compute; reflexivity.

Ltac lab_file :=
  split; [now left | split; [lab_lines | vm_compute; reflexivity]].



(** C10 (as amended) at the table of the five-record file. *)
Lemma mol_column_assigned_lab :
  v_data Lab.loaded = Some Lab.table /\
  get_col "smiles_0" (cols Lab.table) = Some Bench.smiles /\
  Forall2 (fun v w => parse_cell Lab.world v = Ok w)
          Bench.smiles Bench.answers /\
  exists k' t',
    cell15 Lab.world Lab.loaded = (k', Ok tt) /\
    v_data k' = Some t' /\
    nrows t' = nrows Lab.table /\
    length Bench.answers = length Bench.smiles /\
    get_col "mol" (cols t') = Some Bench.answers /\
    (forall c, c <> "mol" ->
               get_col c (cols t') = get_col c (cols Lab.table)) /\
    (~ In "mol" (columns Lab.table) ->
       cols t' = (cols Lab.table ++ [("mol", Bench.answers)])%list /\
       columns t' = (columns Lab.table ++ ["mol"])%list) /\
    (In "mol" (columns Lab.table) ->
       columns t' = columns Lab.table /\
       length (cols t') = length (cols Lab.table)).
Proof.
  split; [reflexivity|]. split; [reflexivity|]. split; [lab_parsed|].
  apply (mol_column_assigned Lab.world Lab.loaded Lab.table Bench.smiles
                             Bench.answers);
    [reflexivity | reflexivity | lab_parsed].
Defined.

(** C1 (as amended) at a column with an unparsable string in the middle. *)
Lemma parse_failure_outcomes_lab :
  let done := [of_parse (E := Lab.world) (Lab.mol_from_smiles "C")] in
  v_data Lab.loaded_mixed = Some Lab.mixed /\
  get_col "smiles_0" (cols Lab.mixed)
  = Some ([VStr "C"] ++ VStr "C(" :: [VStr "N"])%list /\
  Forall2 (fun x w => parse_cell Lab.world x = Ok w) [VStr "C"] done /\
  (forall e, parse_cell Lab.world (VStr "C(") = Raise e ->
     exists k',
       cell15 Lab.world Lab.loaded_mixed = (k', Raise e) /\
       v_data k' = Some Lab.mixed /\
       trace k' = (trace Lab.loaded_mixed
                   ++ map CallMolFromSmiles ([VStr "C"] ++ [VStr "C("]))%list /\
       forall rest,
         run (cell15 Lab.world :: rest) Lab.loaded_mixed = (k', Some e)) /\
  (forall rest, parse_cell Lab.world (VStr "C(") = Ok VNone ->
     Forall2 (fun x w => parse_cell Lab.world x = Ok w) [VStr "N"] rest ->
     exists k',
       cell15 Lab.world Lab.loaded_mixed = (k', Ok tt) /\
       v_data k'
       = Some (setitem Lab.mixed "mol" (done ++ VNone :: rest)%list)).
Proof.
  intros done.
  split; [reflexivity|]. split; [reflexivity|]. split; [lab_parsed|].
  apply (parse_failure_outcomes Lab.world Lab.loaded_mixed Lab.mixed
                                [VStr "C"] done (VStr "C(") [VStr "N"]);
    [reflexivity | reflexivity | lab_parsed].
Defined.


(** * Further properties of the cells *)

(** ** The record read by hand *)

(** X1.  Cell 4 binds [data_path] to the literal path whatever happens next.
    If [gzip.open] raises, nothing else changes.  If [readline] raises, [fp]
    is bound as well (to the file, closed by then) and nothing else changes.
    Otherwise [fp] is bound, [record] is bound to the line with the white
    space at both ends removed (stripping it again changes nothing), that
    string is printed, and nothing else changes.  When the line handed over
    is the first line of a text, ended by a line feed or by a carriage
    return, or is the whole of a text without line ending, [record] is that
    line stripped. *)
Theorem cell4_record (E : Env) (k : Kernel E) :
  match gzip_open E qm9_json_gz with
  | Raise e => cell4 E k = (with_path E k, Raise e)
  | Ok f =>
      match fp_readline E f with
      | Raise e => cell4 E k = (with_file E k f, Raise e)
      | Ok line =>
          exists rec,
            cell4 E k
            = (mkKernel (Some qm9_json_gz) (Some f) (Some rec) (v_data k)
                        (v_mol k) (v_toluene k) (v_r k) (v_bv k)
                        (output k ++ [Printed rec])%list (trace k),
               Ok tt) /\
            rec = PyStr.strip line /\
            PyStr.strip rec = rec /\
            (forall l c rest,
                PyStr.no_nl l = true -> PyStr.no_cr l = true ->
                PyStr.is_nl c || PyStr.is_cr c = true ->
                line = PyStr.readline (l ++ String c rest) ->
                rec = PyStr.strip l) /\
            (forall l,
                PyStr.no_nl l = true -> PyStr.no_cr l = true ->
                line = PyStr.readline l ->
                rec = PyStr.strip l)
      end
  end.
Proof.
  rewrite cell4_run.
  destruct (gzip_open E qm9_json_gz) as [f|e]; [|reflexivity].
  destruct (fp_readline E f) as [line|e]; [|reflexivity].
  exists (PyStr.strip line).
  split; [reflexivity|]. split; [reflexivity|].
  split; [apply PyStrFacts.strip_idem|]. split.
  - intros l c rest Hn Hc He ->.
    rewrite (PyStrFacts.readline_ending l c rest Hn Hc He).
    apply PyStrFacts.strip_app_all_space. reflexivity.
  - intros l Hn Hc ->. now rewrite (PyStrFacts.readline_unended l Hn Hc).
Qed.

(** ** The table that is loaded *)




(** ** All the ways the table cells can end *)

Section TableCells.

Variable E : Env.

Local Abbreviation val := (value (Mol E)).

(** Either every cell of a column comes back from the parser, or there is a
    first one on which the call raises. *)
Lemma parse_all_or_first (vs : list val) :
  (exists ws, Forall2 (fun v w => parse_cell E v = Ok w) vs ws) \/
  (exists pre v post done e,
      vs = (pre ++ v :: post)%list /\
      Forall2 (fun x w => parse_cell E x = Ok w) pre done /\
      parse_cell E v = Raise e).
Proof.
  induction vs as [|v vs IH].
  - left. exists []. constructor.
  - destruct (parse_cell E v) as [w|e] eqn:Hv.
    + destruct IH as [(ws & Hws) | (pre & x & post & done & e & -> & Hp & Hx)].
      * left. exists (w :: ws). now constructor.
      * right. exists (v :: pre), x, post, (w :: done), e.
        repeat split; [now constructor | assumption].
    + right. exists [], v, vs, [], e. repeat split; [constructor | assumption].
Qed.

End TableCells.

(** The ways the parsing cell can end. *)
Lemma cell15_cases (E : Env) (k : Kernel E) :
  match cell15 E k with
  | (k', Ok _) =>
      exists t vs ws,
        v_data k = Some t /\
        get_col "smiles_0" (cols t) = Some vs /\
        Forall2 (fun v w => parse_cell E v = Ok w) vs ws /\
        k' = mkKernel (v_data_path k) (v_fp k)
                      (v_record k) (Some (setitem t "mol" ws)) (v_mol k)
                      (v_toluene k) (v_r k) (v_bv k) (output k)
                      (trace k ++ map CallMolFromSmiles vs)%list
  | (k', Raise e) =>
      ((v_data k = None /\ e = NameError "data" /\ k' = k) \/
       (exists t, v_data k = Some t /\ get_col "smiles_0" (cols t) = None /\
                  e = KeyError "smiles_0" /\ k' = k) \/
       (exists t pre v post done,
           v_data k = Some t /\
           get_col "smiles_0" (cols t) = Some (pre ++ v :: post)%list /\
           Forall2 (fun x w => parse_cell E x = Ok w) pre done /\
           parse_cell E v = Raise e /\
           k' = with_trace E k
                  (trace k ++ map CallMolFromSmiles (pre ++ [v]))%list))
  end.
Proof.
  destruct (v_data k) as [t|] eqn:Hdata.
  - destruct (get_col "smiles_0" (cols t)) as [vs|] eqn:Hcol.
    + destruct (parse_all_or_first E vs)
        as [(ws & Hws) | (pre & v & post & done & e & -> & Hpre & Hv)].
      * rewrite (cell15_returns E k t vs ws Hdata Hcol Hws).
        exists t, vs, ws. auto.
      * rewrite (cell15_raises E k t pre done v e post Hdata Hcol Hpre Hv).
        right. right.
        exists t, pre, v, post, done. auto.
    + unfold cell15, bind, read, lift, getitem. rewrite Hdata, Hcol.
      right. left. exists t. auto.
  - unfold cell15, bind, read. rewrite Hdata.
    left. auto.
Qed.


(** X4.  The outcomes of the parsing cell.  It completes only when [data] is
    bound to a table with a [smiles_0] column on whose every cell the parser
    comes back; then one call per cell was recorded, from the top down, the
    answers (one per cell) are stored under [mol], and nothing else changed.
    Otherwise it raises: [NameError] when [data] is unbound, [KeyError] when
    the column is missing (in both cases without any call and with the kernel
    as it was), or the exception of the first cell on which the parser
    raises, after the calls up to that cell.  Whenever it raises, [data] is
    the table it was and nothing was printed. *)
Theorem cell15_outcomes (E : Env) (k : Kernel E) :
  match cell15 E k with
  | (k', Ok _) =>
      exists t vs ws,
        v_data k = Some t /\
        get_col "smiles_0" (cols t) = Some vs /\
        Forall2 (fun v w => parse_cell E v = Ok w) vs ws /\
        length ws = length vs /\
        k' = mkKernel (v_data_path k) (v_fp k)
                      (v_record k) (Some (setitem t "mol" ws)) (v_mol k)
                      (v_toluene k) (v_r k) (v_bv k) (output k)
                      (trace k ++ map CallMolFromSmiles vs)%list
  | (k', Raise e) =>
      v_data k' = v_data k /\
      output k' = output k /\
      ((v_data k = None /\ e = NameError "data" /\ k' = k) \/
       (exists t, v_data k = Some t /\ get_col "smiles_0" (cols t) = None /\
                  e = KeyError "smiles_0" /\ k' = k) \/
       (exists t pre v post done,
           v_data k = Some t /\
           get_col "smiles_0" (cols t) = Some (pre ++ v :: post)%list /\
           Forall2 (fun x w => parse_cell E x = Ok w) pre done /\
           parse_cell E v = Raise e /\
           k' = with_trace E k
                  (trace k ++ map CallMolFromSmiles (pre ++ [v]))%list))
  end.
Proof.
  pose proof (cell15_cases E k) as H.
  destruct (cell15 E k) as [k' [u|e]].
  - destruct H as (t & vs & ws & Hdata & Hcol & Hws & ->).
    exists t, vs, ws. repeat split; try assumption.
    symmetry. eapply Forall2_length; eauto.
  - assert (Hsame : v_data k' = v_data k /\ output k' = output k).
    { destruct H as [(_ & _ & ->) | [(t & _ & _ & _ & ->) | H]]; auto.
      destruct H as (t & pre & v & post & done & _ & _ & _ & _ & ->).
      split; reflexivity. }
    destruct Hsame. auto.
Qed.

(** X5.  Running the parsing cell a second time, right after a run that
    completed, completes as well and leaves [data] bound to the same table:
    the [mol] column is overwritten in place with the same answers, no
    column is added. *)
Theorem cell15_rerun (E : Env) (k : Kernel E) :
  match cell15 E k with
  | (k1, Ok _) =>
      exists k2, cell15 E k1 = (k2, Ok tt) /\ v_data k2 = v_data k1
  | (_, Raise _) => True
  end.
Proof.
  pose proof (cell15_cases E k) as H.
  destruct (cell15 E k) as [k1 [u|e]]; [|exact I].
  destruct H as (t & vs & ws & Hdata & Hcol & Hws & ->).
  assert (Hcol' : get_col "smiles_0" (cols (setitem t "mol" ws)) = Some vs).
  { unfold setitem. cbn [cols].
    rewrite get_col_set_col_other by discriminate. exact Hcol. }
  eexists. split.
  - eapply cell15_returns; [reflexivity | exact Hcol' | exact Hws].
  - cbn [v_data]. unfold setitem. cbn [cols nrows].
    now rewrite set_col_twice.
Qed.


(** ** The atom loop *)

Section AtomLoop.

Variable E : Env.

Lemma print_lines_run (ps : list (nat * string)) (k : Kernel E) :
  for_each (fun p => print (atom_line (fst p) (snd p))) ps k
  = (mkKernel (v_data_path k) (v_fp k)
              (v_record k) (v_data k) (v_mol k) (v_toluene k) (v_r k)
              (v_bv k)
              (output k
               ++ map (fun p => Printed (atom_line (fst p) (snd p))) ps)%list
              (trace k),
     Ok (map (fun _ => tt) ps)).
Proof.
  revert k. induction ps as [|p ps IH]; intros k; simpl.
  - unfold ret. rewrite app_nil_r. now destruct k.
  - unfold bind at 1. unfold print at 1, show at 1. cbv beta iota.
    unfold bind at 1. rewrite IH. cbn [v_record v_data v_mol v_toluene v_r
                                        v_bv output trace].
    unfold ret. rewrite <- app_assoc. reflexivity.
Qed.

Lemma print_atoms_run (k : Kernel E) :
  print_atoms E k
  = match v_mol k with
    | Some (VMol m) =>
        match GetAtomSymbols E m with
        | Ok syms =>
            (mkKernel (v_data_path k) (v_fp k)
                      (v_record k) (v_data k) (v_mol k) (v_toluene k) (v_r k)
                      (v_bv k) (output k ++ map Printed (atom_lines syms))%list
                      (trace k ++ [CallGetAtoms (VMol m)])%list,
             Ok tt)
        | Raise e =>
            (with_trace E k (trace k ++ [CallGetAtoms (VMol m)])%list, Raise e)
        end
    | Some _ => (k, Raise (AttributeError "GetAtoms"))
    | None => (k, Raise (NameError "mol"))
    end.
Proof.
  unfold print_atoms, bind at 1, read.
  destruct (v_mol k) as [[| | | | | | | |m]|] eqn:Hm; try reflexivity.
  unfold method_GetAtoms, bind at 1, bind at 1, log, lift.
  destruct (GetAtomSymbols E m) as [syms|e]; [|reflexivity].
  unfold bind at 1. rewrite print_lines_run.
  unfold ret, atom_lines. cbn [v_record v_data v_mol v_toluene v_r v_bv
                               output trace].
  now rewrite map_map, Hm.
Qed.

End AtomLoop.

Lemma nth_error_combine_seq (A : Type) (xs : list A) (a i : nat) (x : A) :
  nth_error xs i = Some x ->
  nth_error (combine (seq a (length xs)) xs) i = Some (a + i, x).
Proof.
  revert a i. induction xs as [|y xs IH]; intros a [|i]; simpl;
    try discriminate.
  - intros H. injection H as <-. now rewrite Nat.add_0_r.
  - intros H. rewrite (IH (S a) i H). f_equal. f_equal. lia.
Qed.

(** X7.  The atom loop of cells 18 and 21.  On a molecule whose atoms the
    library lists, it prints one line per atom and nothing else, in atom
    order, line [i] being [Atom i is an <symbol i>] with [i] counted from 0
    (so nothing at all for a molecule without atoms), after one recorded
    call.  If listing the atoms raises, nothing is printed.  On [None], or
    any other value that is no molecule, it raises [AttributeError] before
    any call; with [mol] unbound it raises [NameError]. *)
Theorem atom_loop_prints (E : Env) (k : Kernel E) :
  cell21 E k = cell18 E k /\
  cell18 E k
  = match v_mol k with
    | Some (VMol m) =>
        match GetAtomSymbols E m with
        | Ok syms =>
            (mkKernel (v_data_path k) (v_fp k)
                      (v_record k) (v_data k) (v_mol k) (v_toluene k) (v_r k)
                      (v_bv k) (output k ++ map Printed (atom_lines syms))%list
                      (trace k ++ [CallGetAtoms (VMol m)])%list,
             Ok tt)
        | Raise e =>
            (with_trace E k (trace k ++ [CallGetAtoms (VMol m)])%list, Raise e)
        end
    | Some _ => (k, Raise (AttributeError "GetAtoms"))
    | None => (k, Raise (NameError "mol"))
    end /\
  forall syms,
    length (atom_lines syms) = length syms /\
    forall i sym, nth_error syms i = Some sym ->
      nth_error (atom_lines syms) i
      = Some ("Atom " ++ PyStr.show_nat i ++ " is an " ++ sym).
Proof.
  split; [reflexivity|]. split; [apply print_atoms_run|].
  intros syms. unfold atom_lines. split.
  - rewrite length_map, length_combine, length_seq. apply Nat.min_id.
  - intros i sym Hi.
    rewrite nth_error_map, (nth_error_combine_seq _ syms 0 i sym Hi).
    reflexivity.
Qed.

(** ** What holds throughout a run *)

Section Throughout.

Variable E : Env.







End Throughout.


(** ** A literal that is not parsed *)

Section UnparsedLiteral.

Variable E : Env.

Ltac unfold_data_cells :=
  unfold cell4, cell6, cell8, cell9, show_decoded, bind, read, lift, ret,
    raise, show, print, set_data_path, set_fp, set_record, set_data.

Ltac split_data_cases :=
  repeat match goal with
         | |- context [match ?x with _ => _ end] =>
             lazymatch x with
             | context [match _ with _ => _ end] => fail
             | _ => destruct x; cbn
             end
         end.

(** The four cells that deal with the file record no call and bind neither
    [mol] nor [toluene]. *)
Lemma data_cells_keep_molecules (c : M E unit) (k : Kernel E) :
  In c [cell4 E; cell6 E; cell8 E; cell9 E] ->
  trace (fst (c k)) = trace k /\
  v_mol (fst (c k)) = v_mol k /\
  v_toluene (fst (c k)) = v_toluene k.
Proof.
  intros Hc. cbn [In] in Hc.
  repeat (destruct Hc as [<- | Hc]); try contradiction;
    destruct k as [path fp rec data mol tol r bv out tr];
    unfold_data_cells; cbn; split_data_cases; auto.
Qed.

Lemma data_cells_keep_no_molecule (c : M E unit) (k : Kernel E) :
  In c [cell4 E; cell6 E; cell8 E; cell9 E] ->
  no_molecule k -> no_molecule (fst (c k)).
Proof.
  intros Hc (Htr & Htol & Hmol). unfold no_molecule.
  destruct (data_cells_keep_molecules c k Hc) as (-> & -> & ->).
  now repeat split.
Qed.

Lemma cell13_keeps_no_molecule (k : Kernel E) :
  MolFromSmiles E "CCCO" = Ok None ->
  no_molecule k -> no_molecule (fst (cell13 E k)).
Proof.
  intros Hnone (Htr & Htol & Hmol).
  unfold cell13, bind at 1. rewrite Chem_MolFromSmiles_run.
  unfold parse_cell. rewrite Hnone.
  unfold bind, set_mol, read, show_val, ret, with_trace. cbn.
  repeat split; [|assumption | now right].
  apply Forall_app. split; [assumption|]. repeat constructor. eauto.
Qed.

Lemma cell15_keeps_no_molecule (k : Kernel E) :
  no_molecule k -> no_molecule (fst (cell15 E k)).
Proof.
  intros (Htr & Htol & Hmol).
  pose proof (cell15_cases E k) as H.
  destruct (cell15 E k) as [k' [u|e]]; cbn [fst].
  - destruct H as (t & vs & ws & _ & _ & _ & ->). cbn.
    repeat split; [|assumption | assumption].
    apply Forall_app. split; [assumption|].
    apply Forall_forall. intros ev Hev. apply in_map_iff in Hev.
    destruct Hev as (v & <- & _). eauto.
  - destruct H as [(_ & _ & ->) | [(t & _ & _ & _ & ->) | H]];
      [now repeat split | now repeat split |].
    destruct H as (t & pre & v & post & done & _ & _ & _ & _ & ->).
    unfold with_trace. cbn. repeat split; [|assumption | assumption].
    apply Forall_app. split; [assumption|].
    apply Forall_forall. intros ev Hev. apply in_map_iff in Hev.
    destruct Hev as (w & <- & _). eauto.
Qed.

(** Without a molecule in [mol], the first atom loop raises at once. *)
Lemma cell18_stops (k : Kernel E) :
  no_molecule k -> exists e, cell18 E k = (k, Raise e).
Proof.
  intros (_ & _ & Hmol). unfold cell18. rewrite print_atoms_run.
  destruct Hmol as [-> | ->]; eauto.
Qed.

Lemma run_keeps_then_stops (P : Kernel E -> Prop) (pre : list (M E unit))
      (c : M E unit) (rest : list (M E unit)) :
  (forall c', In c' pre -> forall k, P k -> P (fst (c' k))) ->
  (forall k, P k -> exists e, c k = (k, Raise e)) ->
  forall k, P k ->
    (exists e, snd (run (pre ++ c :: rest) k) = Some e) /\
    P (fst (run (pre ++ c :: rest) k)).
Proof.
  intros Hpre Hstop. induction pre as [|c' pre IH]; intros k Hk.
  - cbn [app run]. destruct (Hstop k Hk) as (e & ->). cbn. eauto.
  - cbn [app run]. pose proof (Hpre c' (or_introl eq_refl) k Hk) as Hc'.
    destruct (c' k) as [k' [u|e]]; cbn [fst] in Hc'.
    + apply IH; [|exact Hc']. intros c0 Hc0. apply Hpre. now right.
    + cbn. eauto.
Qed.

End UnparsedLiteral.

(** X9.  If the library answers [None] for the literal ['CCCO'], every run of
    the notebook ends with an exception, at the first atom loop at the
    latest: no call other than [MolFromSmiles] is ever made, [toluene] is
    never bound, and [mol] holds no molecule. *)
Theorem unparsed_literal_ends_run (E : Env) :
  MolFromSmiles E "CCCO" = Ok None ->
  (exists e, snd (run_notebook E) = Some e) /\
  no_molecule (fst (run_notebook E)).
Proof.
  intros Hnone. unfold run_notebook, cells.
  change [cell4 E; cell6 E; cell8 E; cell9 E; cell13 E; cell15 E; cell18 E;
          cell20 E; cell21 E; cell23 E; cell24 E; cell28 E; cell30 E;
          cell32 E; cell33 E]
    with ([cell4 E; cell6 E; cell8 E; cell9 E; cell13 E; cell15 E]
          ++ cell18 E
          :: [cell20 E; cell21 E; cell23 E; cell24 E; cell28 E; cell30 E;
              cell32 E; cell33 E])%list.
  apply run_keeps_then_stops.
  - intros c Hc k Hk. cbn [In] in Hc.
    destruct Hc as [<- | [<- | [<- | [<- | [<- | [<- | []]]]]]].
    + apply data_cells_keep_no_molecule; [cbn; tauto | exact Hk].
    + apply data_cells_keep_no_molecule; [cbn; tauto | exact Hk].
    + apply data_cells_keep_no_molecule; [cbn; tauto | exact Hk].
    + apply data_cells_keep_no_molecule; [cbn; tauto | exact Hk].
    + now apply cell13_keeps_no_molecule.
    + now apply cell15_keeps_no_molecule.
  - apply cell18_stops.
  - repeat split; [constructor | now left].
Qed.

(** X9 in the laboratory whose parser understands nothing. *)
Lemma unparsed_literal_ends_run_blind :
  MolFromSmiles Blind.world "CCCO" = Ok None /\
  (exists e, snd (run_notebook Blind.world) = Some e) /\
  no_molecule (fst (run_notebook Blind.world)).
Proof.
  split; [reflexivity|].
  apply (unparsed_literal_ends_run Blind.world). reflexivity.
Defined.

(** ** The run in which every call comes back *)

(** X10.  When every library call of the notebook comes back, the first line
    decodes to an object, the text of the file decodes to an array of
    objects that have, between them, the three displayed keys, the run
    completes without exception and ends in the kernel below: [data_path] is
    the literal path and [fp] the file; [record] is the line handed over by
    [readline], stripped; [data] is the loaded table with the parser's
    answers assigned to the column [mol]; [mol] is the explicit-hydrogen form
    of the parsed ['CCCO'] and [toluene] the parsed ['Cc1ccccc1']; [r] has
    been rebound from the ring information to the BCUT vector; the output
    area and the recorded calls are exactly the listed ones, in this
    order. *)
Theorem notebook_completes (E : Env) (f : TextFile E) (line text : string)
        (r0 : pyrecord (Mol E)) (rs : list (pyrecord (Mol E)))
        (p : Table (Mol E)) (vs ws : list (value (Mol E)))
        (m0 m1 mt : Mol E) (s0 s1 : list string) (ri : RingInfo E)
        (n nr : Z) (x : Vectd E) (b : BitVect E) (a : list Z) :
  gzip_open E qm9_json_gz = Ok f ->
  fp_readline E f = Ok line ->
  json_loads E (PyStr.strip line) = Ok (VDict r0) ->
  pd_read E qm9_json_gz = Ok text ->
  json_loads E (combine_lines (json_lines text))
  = Ok (VList (map (@VDict (Mol E)) rs)) ->
  getitem_list (loaded_table E rs) ["smiles_0"; "inchi_0"; "u"] = Ok p ->
  get_col "smiles_0" (cols (loaded_table E rs)) = Some vs ->
  Forall2 (fun v w => parse_cell E v = Ok w) vs ws ->
  MolFromSmiles E "CCCO" = Ok (Some m0) ->
  GetAtomSymbols E m0 = Ok s0 ->
  AddHs E m0 = Ok m1 ->
  GetAtomSymbols E m1 = Ok s1 ->
  MolFromSmiles E "Cc1ccccc1" = Ok (Some mt) ->
  GetRingInfo E mt = Ok ri ->
  NumRings E ri = Ok n ->
  CalcNumRotatableBonds E mt = Ok nr ->
  BCUT2D E m1 = Ok x ->
  GetMorganFingerprintAsBitVect E m1 4 16 = Ok b ->
  asarray E b = Ok a ->
  run_notebook E
  = (mkKernel
       (Some qm9_json_gz)
       (Some f)
       (Some (PyStr.strip line))
       (Some (setitem (loaded_table E rs) "mol" ws))
       (Some (VMol m1))
       (Some (VMol mt))
       (Some (RVect E x))
       (Some b)
       ([Printed (PyStr.strip line); ShownValue (VDict r0);
         ShownTable (head 5 p); ShownMol m0]
        ++ map Printed (atom_lines s0)
        ++ [ShownMol m1]
        ++ map Printed (atom_lines s1)
        ++ [ShownMol mt;
            Printed ("Toluene has " ++ PyStr.show_Z n ++ " ring");
            Printed ("Toluene has " ++ PyStr.show_Z nr ++ " rotatable bonds");
            ShownVectd x; ShownBitVect b; ShownArray a])%list
       ([CallMolFromSmiles (VStr "CCCO")]
        ++ map CallMolFromSmiles vs
        ++ [CallGetAtoms (VMol m0); CallAddHs (VMol m0);
            CallGetAtoms (VMol m1); CallMolFromSmiles (VStr "Cc1ccccc1");
            CallGetRingInfo (VMol mt); CallNumRings;
            CallCalcNumRotatableBonds (VMol mt); CallBCUT2D (VMol m1);
            CallMorgan (VMol m1) 4 16; CallAsarray])%list,
     None).
Proof.
  intros Hopen Hline Hloads Htext Harray Hsel Hcol Hws Hm0 Hs0 Hm1 Hs1 Hmt Hri
         Hn Hnr Hx Hb Ha.
  assert (Hread : read_json_lines E qm9_json_gz
                  = Ok (convert (pd_infer E) (from_records rs))).
  { unfold read_json_lines. now rewrite Htext, Harray, records_of_objects. }
  unfold loaded_table in *.
  unfold run_notebook, cells, fresh. cbn [run].
  (* cell 4 *)
  rewrite cell4_run, Hopen, Hline.
  cbn [v_data_path v_fp v_record v_data v_mol v_toluene v_r v_bv output trace].
  (* cells 6 to 9 *)
  unfold cell6, cell8, cell9, show_decoded, bind, lift, read, print, show,
    set_data.
  cbn [v_data_path v_fp v_record v_data v_mol v_toluene v_r v_bv output trace].
  rewrite Hloads.
  cbn [v_data_path v_fp v_record v_data v_mol v_toluene v_r v_bv output trace].
  rewrite Hread.
  cbn [v_data_path v_fp v_record v_data v_mol v_toluene v_r v_bv output trace].
  rewrite Hsel.
  (* cell 13 *)
  unfold cell13, bind. rewrite Chem_MolFromSmiles_run.
  unfold parse_cell, with_trace, set_mol, read, show_val, show, of_parse.
  rewrite Hm0.
  cbn [v_data_path v_fp v_record v_data v_mol v_toluene v_r v_bv output trace].
  (* cell 15 *)
  erewrite cell15_returns; [|reflexivity | exact Hcol | exact Hws].
  cbn [v_data_path v_fp v_record v_data v_mol v_toluene v_r v_bv output trace].
  (* cell 18 *)
  unfold cell18. rewrite print_atoms_run.
  cbn [v_data_path v_fp v_record v_data v_mol v_toluene v_r v_bv output trace].
  rewrite Hs0.
  (* cell 20 *)
  unfold cell20, Chem_AddHs, bind, read, log, lift, ret, set_mol, show_val,
    show.
  cbn [v_data_path v_fp v_record v_data v_mol v_toluene v_r v_bv output trace].
  rewrite Hm1.
  cbn [v_data_path v_fp v_record v_data v_mol v_toluene v_r v_bv output trace].
  (* cell 21 *)
  unfold cell21. rewrite print_atoms_run.
  cbn [v_data_path v_fp v_record v_data v_mol v_toluene v_r v_bv output trace].
  rewrite Hs1.
  (* cell 23 *)
  unfold cell23, bind. rewrite Chem_MolFromSmiles_run.
  unfold parse_cell, with_trace, set_toluene, read, show_val, show, of_parse.
  rewrite Hmt.
  cbn [v_data_path v_fp v_record v_data v_mol v_toluene v_r v_bv output trace].
  (* cells 24 to 33 *)
  unfold cell24, cell28, cell30, cell32, cell33, method_GetRingInfo,
    method_NumRings, AllChem_CalcNumRotatableBonds, AllChem_BCUT2D,
    AllChem_GetMorganFingerprintAsBitVect, np_asarray,
    bind, read, log, lift, ret, set_r, set_bv, print, show.
  cbn [v_data_path v_fp v_record v_data v_mol v_toluene v_r v_bv output trace].
  rewrite Hri.
  cbn [v_data_path v_fp v_record v_data v_mol v_toluene v_r v_bv output trace].
  rewrite Hn.
  cbn [v_data_path v_fp v_record v_data v_mol v_toluene v_r v_bv output trace].
  rewrite Hnr.
  cbn [v_data_path v_fp v_record v_data v_mol v_toluene v_r v_bv output trace].
  rewrite Hx.
  cbn [v_data_path v_fp v_record v_data v_mol v_toluene v_r v_bv output trace].
  rewrite Hb.
  cbn [v_data_path v_fp v_record v_data v_mol v_toluene v_r v_bv output trace].
  rewrite Ha.
  repeat rewrite <- app_assoc. reflexivity.
Qed.

(** ** From the file to the displayed table *)

(** X11.  Cells 8 and 9 together, once [data_path] is bound.  For a
    well-formed file whose records [rs] have, between them, the keys
    [smiles_0], [inchi_0] and [u], the two cells complete and the one table
    shown has exactly these three columns, as many rows as the file has lines
    up to five, and in each column, in file order, what the column conversion
    makes of the values the first five records have under that key ([NaN]
    standing in for a record without the key); the conversion is decided on
    the column of all the records of the file. *)
Theorem displayed_rows (E : Env) (path text : string) (ls : list string)
        (rs : list (pyrecord (Mol E))) (k : Kernel E) :
  v_data_path k = Some path ->
  pd_read E path = Ok text ->
  json_file E text ls rs ->
  (forall c, In c ["smiles_0"; "inchi_0"; "u"] -> In c (union_keys rs)) ->
  exists k' p,
    run [cell8 E; cell9 E] k = (k', None) /\
    output k' = (output k ++ [ShownTable p])%list /\
    columns p = ["smiles_0"; "inchi_0"; "u"] /\
    nrows p = Nat.min 5 (length ls) /\
    forall c, In c ["smiles_0"; "inchi_0"; "u"] ->
      get_col c (cols p) = Some (firstn 5 (map (loaded_cell E rs c) rs)).
Proof.
  intros Hpath Htext Hfile Hkeys.
  assert (Hlen : length ls = length rs)
    by (destruct Hfile as (_ & Hall & _); eapply Forall2_length; eauto).
  set (T := head 1000 (convert (pd_infer E) (from_records rs))).
  assert (HT : nrows T = Nat.min 1000 (length rs))
    by (apply head_count_nonneg; lia).
  assert (Hcols : forall c, In c ["smiles_0"; "inchi_0"; "u"] ->
                            In c (map fst (cols T))).
  { intros c Hc. change (In c (columns T)). unfold T.
    rewrite columns_head, columns_convert, columns_from_records.
    now apply Hkeys. }
  destruct (select_ok _ (cols T) _ Hcols) as (sel & Hsel & Hfst & Hcells).
  assert (H5 : head_count 5 (nrows T) = Nat.min 5 (length ls)).
  { rewrite head_count_nonneg by lia. rewrite HT, Hlen.
    change (Z.to_nat 5) with 5. lia. }
  exists (mkKernel (v_data_path k) (v_fp k) (v_record k) (Some T) (v_mol k)
                   (v_toluene k) (v_r k) (v_bv k)
                   (output k
                    ++ [ShownTable (head 5 (mkTable (nrows T) sel))])%list
                   (trace k)),
         (head 5 (mkTable (nrows T) sel)).
  split; [|split; [reflexivity|split; [|split]]].
  - cbn [run]. rewrite (cell8_ok E k path text ls rs Hpath Htext Hfile).
    fold T. unfold cell9, bind, read, lift, show, with_data, getitem_list.
    cbn [v_data_path v_fp v_record v_data v_mol v_toluene v_r v_bv output
         trace].
    now rewrite Hsel.
  - rewrite columns_head. exact Hfst.
  - exact H5.
  - intros c Hc. rewrite get_col_head. cbn [nrows cols]. rewrite H5.
    rewrite (get_col_select _ (cols T) sel c Hcells)
      by (now rewrite Hfst).
    unfold T. rewrite get_col_head, get_col_convert.
    rewrite get_col_from_records by (now apply Hkeys).
    change (nrows (convert (pd_infer E) (from_records rs)))
      with (length rs).
    rewrite head_count_nonneg by lia. change (Z.to_nat 1000) with 1000.
    cbn [option_map]. f_equal. rewrite map_map.
    change (fun r => pd_infer E c (map (cell c) rs) (cell c r))
      with (loaded_cell E rs c).
    set (L := map (loaded_cell E rs c) rs).
    assert (HL : length L = length rs) by apply length_map.
    rewrite Hlen, <- HL, (firstn_min_length _ 1000 L), firstn_firstn.
    replace (Nat.min (Nat.min 5 (length L)) 1000)
      with (Nat.min 5 (length L)) by lia.
    apply firstn_min_length.
Qed.

(** ** The further theorems at the laboratory files *)


(** X11 at the five-record file. *)
Lemma displayed_rows_lab :
  v_data_path Lab.pathed = Some qm9_json_gz /\
  pd_read Lab.world qm9_json_gz = Ok (PyStr.unlines Lab.lines) /\
  json_file Lab.world (PyStr.unlines Lab.lines) Lab.lines Lab.qm9_head /\
  (forall c, In c ["smiles_0"; "inchi_0"; "u"] ->
             In c (union_keys Lab.qm9_head)) /\
  exists (k' : Kernel Lab.world) (p : Table (Mol Lab.world)),
    run [cell8 Lab.world; cell9 Lab.world] Lab.pathed = (k', None) /\
    output k' = (output Lab.pathed ++ [ShownTable p])%list /\
    columns p = ["smiles_0"; "inchi_0"; "u"] /\
    nrows p = Nat.min 5 (length Lab.lines) /\
    forall c, In c ["smiles_0"; "inchi_0"; "u"] ->
      get_col c (cols p)
      = Some (firstn 5 (map (loaded_cell Lab.world Lab.qm9_head c)
                            Lab.qm9_head)).
Proof.
  assert (Hfile : json_file Lab.world (PyStr.unlines Lab.lines) Lab.lines
                            Lab.qm9_head) by lab_file.
  assert (Hkeys : forall c, In c ["smiles_0"; "inchi_0"; "u"] ->
                            In c (union_keys Lab.qm9_head)).
  { intros c [<- | [<- | [<- | []]]]; vm_compute; tauto. }
  split; [reflexivity|]. split; [reflexivity|]. split; [exact Hfile|].
  split; [exact Hkeys|].
  apply (displayed_rows Lab.world qm9_json_gz (PyStr.unlines Lab.lines)
                        Lab.lines Lab.qm9_head Lab.pathed);
    [reflexivity | reflexivity | exact Hfile | exact Hkeys].
Defined.

(** X10 at the five-record file. *)
Lemma notebook_completes_lab :
  let text := PyStr.unlines Lab.lines in
  let line := PyStr.readline text in
  let r0 := Lab.qm9_row "C" "InChI=1S/CH4/h1H4" (-40476062) in
  let s0 := ["C"; "C"; "C"; "O"] in
  let s1 := ["C"; "C"; "C"; "O"; "H"; "H"; "H"; "H"; "H"; "H"; "H"; "H"] in
  gzip_open Lab.world qm9_json_gz = Ok text /\
  fp_readline Lab.world text = Ok line /\
  json_loads Lab.world (PyStr.strip line) = Ok (VDict r0) /\
  pd_read Lab.world qm9_json_gz = Ok text /\
  json_loads Lab.world (combine_lines (json_lines text))
  = Ok (VList (map (@VDict Lab.mol) Lab.qm9_head)) /\
  getitem_list (loaded_table Lab.world Lab.qm9_head)
               ["smiles_0"; "inchi_0"; "u"] = Ok Bench.displayed /\
  get_col "smiles_0" (cols (loaded_table Lab.world Lab.qm9_head))
  = Some Bench.smiles /\
  Forall2 (fun v w => parse_cell Lab.world v = Ok w)
          Bench.smiles Bench.answers /\
  MolFromSmiles Lab.world "CCCO" = Ok (Some Bench.propanol) /\
  GetAtomSymbols Lab.world Bench.propanol = Ok s0 /\
  AddHs Lab.world Bench.propanol = Ok Bench.propanol_hs /\
  GetAtomSymbols Lab.world Bench.propanol_hs = Ok s1 /\
  MolFromSmiles Lab.world "Cc1ccccc1" = Ok (Some Bench.toluene) /\
  GetRingInfo Lab.world Bench.toluene = Ok 1%Z /\
  NumRings Lab.world 1%Z = Ok 1%Z /\
  CalcNumRotatableBonds Lab.world Bench.toluene = Ok 0%Z /\
  BCUT2D Lab.world Bench.propanol_hs = Ok [] /\
  GetMorganFingerprintAsBitVect Lab.world Bench.propanol_hs 4 16
  = Ok Bench.bits /\
  asarray Lab.world Bench.bits = Ok Bench.array /\
  run_notebook Lab.world
  = (mkKernel (E := Lab.world)
       (Some qm9_json_gz)
       (Some text)
       (Some (PyStr.strip line))
       (Some (setitem (loaded_table Lab.world Lab.qm9_head) "mol"
                      Bench.answers))
       (Some (VMol Bench.propanol_hs))
       (Some (VMol Bench.toluene))
       (Some (RVect Lab.world []))
       (Some Bench.bits)
       ([Printed (E := Lab.world) (PyStr.strip line);
         ShownValue (E := Lab.world) (VDict r0);
         ShownTable (E := Lab.world) (head 5 Bench.displayed);
         ShownMol (E := Lab.world) Bench.propanol]
        ++ map Printed (atom_lines s0)
        ++ [ShownMol (E := Lab.world) Bench.propanol_hs]
        ++ map Printed (atom_lines s1)
        ++ [ShownMol (E := Lab.world) Bench.toluene;
            Printed ("Toluene has " ++ PyStr.show_Z 1 ++ " ring");
            Printed ("Toluene has " ++ PyStr.show_Z 0 ++ " rotatable bonds");
            ShownVectd (E := Lab.world) [];
            ShownBitVect (E := Lab.world) Bench.bits;
            ShownArray (E := Lab.world) Bench.array])%list
       ([CallMolFromSmiles (E := Lab.world) (VStr "CCCO")]
        ++ map (CallMolFromSmiles (E := Lab.world)) Bench.smiles
        ++ [CallGetAtoms (E := Lab.world) (VMol Bench.propanol);
            CallAddHs (E := Lab.world) (VMol Bench.propanol);
            CallGetAtoms (E := Lab.world) (VMol Bench.propanol_hs);
            CallMolFromSmiles (VStr "Cc1ccccc1");
            CallGetRingInfo (E := Lab.world) (VMol Bench.toluene);
            CallNumRings (E := Lab.world);
            CallCalcNumRotatableBonds (E := Lab.world) (VMol Bench.toluene);
            CallBCUT2D (E := Lab.world) (VMol Bench.propanol_hs);
            CallMorgan (E := Lab.world) (VMol Bench.propanol_hs) 4 16;
            CallAsarray (E := Lab.world)])%list,
     None).
Proof.
  intros text line r0 s0 s1.
  assert (H1 : gzip_open Lab.world qm9_json_gz = Ok text) by reflexivity.
  assert (H2 : fp_readline Lab.world text = Ok line) by reflexivity.
  assert (H3 : json_loads Lab.world (PyStr.strip line) = Ok (VDict r0))
    by (vm_compute; reflexivity).
  assert (H4 : pd_read Lab.world qm9_json_gz = Ok text) by reflexivity.
  assert (H4' : json_loads Lab.world (combine_lines (json_lines text))
                = Ok (VList (map (@VDict Lab.mol) Lab.qm9_head)))
    by (vm_compute; reflexivity).
  assert (H5 : getitem_list (loaded_table Lab.world Lab.qm9_head)
                            ["smiles_0"; "inchi_0"; "u"] = Ok Bench.displayed)
    by (vm_compute; reflexivity).
  assert (H6 : get_col "smiles_0"
                 (cols (loaded_table Lab.world Lab.qm9_head))
               = Some Bench.smiles) by (vm_compute; reflexivity).
  assert (H7 : Forall2 (fun v w => parse_cell Lab.world v = Ok w)
                       Bench.smiles Bench.answers) by lab_parsed.
  assert (H8 : MolFromSmiles Lab.world "CCCO" = Ok (Some Bench.propanol))
    by (vm_compute; reflexivity).
  assert (H9 : GetAtomSymbols Lab.world Bench.propanol = Ok s0)
    by (vm_compute; reflexivity).
  assert (H10 : AddHs Lab.world Bench.propanol = Ok Bench.propanol_hs)
    by (vm_compute; reflexivity).
  assert (H11 : GetAtomSymbols Lab.world Bench.propanol_hs = Ok s1)
    by (vm_compute; reflexivity).
  assert (H12 : MolFromSmiles Lab.world "Cc1ccccc1" = Ok (Some Bench.toluene))
    by (vm_compute; reflexivity).
  assert (H13 : GetRingInfo Lab.world Bench.toluene = Ok 1%Z)
    by (vm_compute; reflexivity).
  assert (H14 : NumRings Lab.world 1%Z = Ok 1%Z) by reflexivity.
  assert (H15 : CalcNumRotatableBonds Lab.world Bench.toluene = Ok 0%Z)
    by reflexivity.
  assert (H16 : BCUT2D Lab.world Bench.propanol_hs = Ok []) by reflexivity.
  assert (H17 : GetMorganFingerprintAsBitVect Lab.world Bench.propanol_hs 4 16
                = Ok Bench.bits) by (vm_compute; reflexivity).
  assert (H18 : asarray Lab.world Bench.bits = Ok Bench.array)
    by (vm_compute; reflexivity).
  repeat (split; [assumption|]).
  exact (notebook_completes Lab.world text line text r0 Lab.qm9_head
           Bench.displayed Bench.smiles Bench.answers Bench.propanol
           Bench.propanol_hs Bench.toluene s0 s1 1%Z 1%Z 0%Z [] Bench.bits
           Bench.array
           H1 H2 H3 H4 H4' H5 H6 H7 H8 H9 H10 H11 H12 H13 H14 H15 H16 H17 H18).
Defined.
